(** * The S3 bucket auto-emptying hook ([empty-s3-bucket/index.py])

    The hook is a single AWS Lambda handler.  It validates the inbound
    CloudFormation hook event, reads the bucket name from it, empties the
    bucket through the boto3 resource API and answers with a verdict.

    Definitions:
    - [Py]: the Python values a JSON event is decoded to, with truthiness
      and the comparison with a string literal;
    - [Run]: exceptions, [dict.get] and subscripting, and computations over
      a state that either return or raise;
    - [S3]: the storage service as the handler sees it through boto3
      (buckets, object versions, delete markers, the two collection
      [delete()] actions).  The service and boto3 are not part of the
      repository: this is a model of them;
    - [Hook]: [empty_bucket] and [lambda_handler], line by line;
    - [Event]: the shapes of events the statements speak of;
    - [Examples]: a few events and buckets.

    Properties:
    - [S3Facts]: what the two collection actions do to a bucket;
    - [HookFacts]: the handler, branch by branch;
    - [Claims]: the behaviour of the hook, statement by statement.

    The logging statements of the handler ([print] of the event and the
    [logging] calls) write to the log of the execution environment only and
    are left out. *)

From Stdlib Require Import PrimFloat ZArith DecimalString.
From stdpp Require Import gmap strings list.

Set Warnings "-register-all".

(** ** Python values *)
Module Py.

(** What [json.loads] produces: [None], booleans, integers, floats (IEEE
    binary64, as CPython has them), strings, lists and dictionaries with
    string keys.  A dictionary is a finite map: the handler only looks keys
    up.  A string stands for its UTF-8 encoding; the handler compares
    strings, tests them for emptiness and concatenates them, which the
    encoding preserves. *)
Inductive pyval : Type :=
| VNone
| VBool (b : bool)
| VInt (z : Z)
| VFloat (f : PrimFloat.float)
| VStr (s : string)
| VList (l : list pyval)
| VDict (d : gmap string pyval).

(** [bool(v)], the test behind [not v]. *)
Definition truthy (v : pyval) : bool :=
  match v with
  | VNone => false
  | VBool b => b
  | VInt z => negb (Z.eqb z 0)
  | VFloat f => negb (PrimFloat.eqb f PrimFloat.zero)
  | VStr s => negb (String.eqb s "")
  | VList l => match l with [] => false | _ :: _ => true end
  | VDict d => negb (bool_decide (d = ∅))
  end.

(** [v != lit] for a string literal [lit]: a value that is not a string is
    never equal to a string. *)
Definition ne_str (v : pyval) (lit : string) : bool :=
  match v with
  | VStr s => negb (String.eqb s lit)
  | _ => true
  end.

(** [repr(k)] for a key made of printable characters other than quotes and
    backslashes, which is the case of every key the handler subscripts
    with. *)
Definition repr_key (k : string) : string := "'" +:+ k +:+ "'".

End Py.
Export Py.

(** ** Exceptions and computations *)
Module Run.

(** The exceptions that can arise in the handler.  [AttributeError],
    [KeyError] and [TypeError] come from the interpreter; the last three
    from boto3 and botocore. *)
Inductive exn : Type :=
| AttributeError
| KeyError (k : string)
| TypeError
| ValueError
| ParamValidationError
| ClientError (code : string).

Inductive outcome (A : Type) : Type :=
| Return (a : A)
| Raise (e : exn).
Arguments Return {A} a.
Arguments Raise {A} e.

#[global] Instance outcome_ret : MRet outcome := λ A a, Return a.

#[global] Instance outcome_bind : MBind outcome := λ A B k o,
  match o with
  | Return a => k a
  | Raise e => Raise e
  end.

#[global] Instance outcome_fmap : FMap outcome := λ A B f o,
  match o with
  | Return a => Return (f a)
  | Raise e => Raise e
  end.

(** [v.get(k)]: only dictionaries have the method. *)
Definition py_get (v : pyval) (k : string) : outcome pyval :=
  match v with
  | VDict d => Return (default VNone (d !! k))
  | _ => Raise AttributeError
  end.

(** [v[k]] for a string [k]: a missing key raises [KeyError(k)]; strings and
    lists do not take a string index and the other values are not
    subscriptable, which is a [TypeError] in each case. *)
Definition py_getitem (v : pyval) (k : string) : outcome pyval :=
  match v with
  | VDict d =>
      match d !! k with
      | Some x => Return x
      | None => Raise (KeyError k)
      end
  | _ => Raise TypeError
  end.

(** [not v] *)
Definition py_not (v : pyval) : bool := negb (truthy v).

(** [a or b] on conditions: [b] is evaluated only when [a] is false. *)
Definition py_or (a b : outcome bool) : outcome bool :=
  match a with
  | Return true => Return true
  | Return false => b
  | Raise e => Raise e
  end.

(** A computation runs on a state [W] and returns or raises, with the state
    it leaves behind. *)
Definition M (W A : Type) : Type := W → outcome A * W.

#[global] Instance M_ret {W} : MRet (M W) := λ A a w, (Return a, w).

#[global] Instance M_bind {W} : MBind (M W) := λ A B k c w,
  match c w with
  | (Return a, w') => k a w'
  | (Raise e, w') => (Raise e, w')
  end.

Definition lift {W A} (o : outcome A) : M W A := λ w, (o, w).

(** [try: c  except KeyError as err: h err].  Any other exception passes
    through. *)
Definition try_except_KeyError {W A} (c : M W A) (h : string → M W A) : M W A :=
  λ w, match c w with
       | (Raise (KeyError k), w') => h k w'
       | r => r
       end.

End Run.
Export Run.

(** ** The storage service behind boto3

    The object storage backend and the boto3 client in front of it are
    outside the repository.  The specification describes what the bulk
    delete needs of them (section 4.2): it enumerates and deletes the
    current objects, then the historical versions and the delete markers,
    page by page, on buckets with versioning enabled, suspended or never
    enabled, and deleting an object that is absent is not an error.  The
    model gives the service this behaviour, after the S3 API.  Left out:
    permissions, object locks and the per-key errors a DeleteObjects
    response can carry, other clients writing to the bucket, the retries of
    the transport layer and the naming rules of buckets. *)
Module S3.

(** The version id of an entry: the id [null] of objects written while
    versioning is off or suspended, or an id handed out by the service. *)
Inductive version_id : Type :=
| Null
| Vid (n : nat).

#[global] Instance version_id_eq_dec : EqDecision version_id.
Proof. solve_decision. Defined.

(** One entry of a bucket: an object version, or a delete marker. *)
Record entry : Type := Entry {
  key : string;
  version : version_id;
  delete_marker : bool
}.

#[global] Instance entry_eq_dec : EqDecision entry.
Proof. solve_decision. Defined.

Inductive versioning : Type :=
| Unversioned
| Enabled
| Suspended.

(** A bucket keeps its entries newest first; the latest entry of a key is
    the first one with that key.  [next_vid] is the next id the service
    hands out. *)
Record bucket : Type := Bucket {
  status : versioning;
  entries : list entry;
  next_vid : nat
}.

(** An element of the [Delete.Objects] parameter of DeleteObjects: a key,
    with or without a version id. *)
Record object_identifier : Type := ObjectIdentifier {
  Key : string;
  VersionId : option version_id
}.

(** The requests the client sends.  A paginated enumeration is recorded
    once. *)
Inductive request : Type :=
| ListObjects (bucket_name : string)
| ListObjectVersions (bucket_name : string)
| DeleteObjects (bucket_name : string) (objects : list object_identifier).

(** The service: its buckets by name and the requests it has received, most
    recent first. *)
Record service : Type := Service {
  buckets : gmap string bucket;
  requests : list request
}.

(** *** What the service does to one bucket *)

Definition remove_version (k : string) (v : version_id) (es : list entry) : list entry :=
  filter (λ e, ¬ (key e = k ∧ version e = v)) es.

Definition remove_key (k : string) (es : list entry) : list entry :=
  filter (λ e, key e ≠ k) es.

(** Modelled from the spec: the storage backend, which is not in the
    repository.  Deleting one object.  With a version id the named entry is
    removed for good.  Without one the outcome depends on the versioning status: an
    unversioned bucket loses the object, a versioned bucket keeps every
    version and gets a delete marker on top, a suspended bucket has its
    [null] version replaced by a [null] delete marker.  The key need not
    exist. *)
Definition delete_object (b : bucket) (o : object_identifier) : bucket :=
  match VersionId o with
  | Some v => Bucket (status b) (remove_version (Key o) v (entries b)) (next_vid b)
  | None =>
      match status b with
      | Unversioned =>
          Bucket Unversioned (remove_key (Key o) (entries b)) (next_vid b)
      | Enabled =>
          Bucket Enabled (Entry (Key o) (Vid (next_vid b)) true :: entries b)
                 (S (next_vid b))
      | Suspended =>
          Bucket Suspended
                 (Entry (Key o) Null true :: remove_version (Key o) Null (entries b))
                 (next_vid b)
      end
  end.

Definition delete_all (b : bucket) (objects : list object_identifier) : bucket :=
  foldl delete_object b objects.

(** The latest entry of every key, skipping the keys already [seen]. *)
Fixpoint latest (seen : list string) (es : list entry) : list entry :=
  match es with
  | [] => []
  | e :: es' =>
      if bool_decide (key e ∈ seen) then latest seen es'
      else e :: latest (key e :: seen) es'
  end.

(** The latest entry of the key [k], if the bucket has one. *)
Fixpoint newest (k : string) (es : list entry) : option entry :=
  match es with
  | [] => None
  | e :: es' => if decide (key e = k) then Some e else newest k es'
  end.

(** The key [k] has no live object: its latest entry, if there is one, is a
    delete marker. *)
Definition dead (k : string) (es : list entry) : Prop :=
  ∀ e, newest k es = Some e → delete_marker e = true.

(** The current objects, as ListObjects shows them: the keys whose latest
    entry is not a delete marker.  They come in the order the bucket keeps
    them, where the service lists by key; the statements below do not
    depend on the order. *)
Definition current_objects (b : bucket) : list entry :=
  filter (λ e, delete_marker e = false) (latest [] (entries b)).

(** Everything else: the entries that are not the latest of their key, and
    the delete markers that are. *)
Fixpoint superseded (seen : list string) (es : list entry) : list entry :=
  match es with
  | [] => []
  | e :: es' =>
      if bool_decide (key e ∈ seen) then e :: superseded seen es'
      else if delete_marker e then e :: superseded (key e :: seen) es'
      else superseded (key e :: seen) es'
  end.

Definition historical_versions (b : bucket) : list entry :=
  superseded [] (entries b).

(** *** The client operations *)

Definition record (r : request) (s : service) : service :=
  Service (buckets s) (r :: requests s).

(** Modelled from the spec: the storage backend, which is not in the
    repository; section 7 counts an identifier that does not exist among
    the failures the deletion raises.  A request against a bucket: the
    [Bucket] parameter has to be a string or the request is refused before
    it is sent, and a name the service does not know is answered with
    [NoSuchBucket].  The statements below rely on these two being
    exceptions, not on their classes.  A request on a bucket that exists is
    always served: a rejection or an interruption half way through a
    deletion, which would leave the bucket partly emptied, is outside the
    model. *)
Definition on_bucket {A} (name : pyval) (r : string → request)
    (f : bucket → A * bucket) : M service A :=
  λ s, match name with
       | VStr n =>
           match buckets s !! n with
           | Some b =>
               (Return (f b).1, Service (<[n := (f b).2]> (buckets s)) (r n :: requests s))
           | None => (Raise (ClientError "NoSuchBucket"), record (r n) s)
           end
       | _ => (Raise ParamValidationError, s)
       end.

(** An [Object] resource is identified by its key, an [ObjectVersion] by
    its key and version id. *)
Definition object_id (e : entry) : object_identifier :=
  ObjectIdentifier (key e) None.

Definition object_version_id (e : entry) : object_identifier :=
  ObjectIdentifier (key e) (Some (version e)).

(** Modelled from the spec: the enumeration of the current objects by the
    storage backend, which is not in the repository. *)
Definition list_objects (name : pyval) : M service (list object_identifier) :=
  on_bucket name ListObjects (λ b, (map object_id (current_objects b), b)).

(** Modelled from the spec: the enumeration of the historical versions and
    delete markers by the storage backend, which is not in the repository.
    ListObjectVersions shows every version, current or not, and the delete
    markers. *)
Definition list_object_versions (name : pyval) : M service (list object_identifier) :=
  on_bucket name ListObjectVersions (λ b, (map object_version_id (entries b), b)).

(** Modelled from the spec: the delete operation of the storage backend,
    which is not in the repository.  The response of DeleteObjects lists
    what was deleted: every requested identifier, present or not. *)
Definition delete_objects (name : pyval) (objects : list object_identifier)
    : M service (list object_identifier) :=
  on_bucket name (λ n, DeleteObjects n objects)
    (λ b, (objects, delete_all b objects)).

(** *** Collections and their batch action *)

(** A listing comes in pages of at most [page_size] elements. *)
Definition page_size : nat := 1000.

(** [pages_upto] cuts one page per unit of fuel; [pages] gives it as much
    fuel as there are elements, so that the last case but one is never
    reached. *)
Fixpoint pages_upto {A} (fuel : nat) (l : list A) : list (list A) :=
  match fuel, l with
  | _, [] => []
  | 0, _ :: _ => [l]
  | S fuel', _ :: _ => take page_size l :: pages_upto fuel' (drop page_size l)
  end.

Definition pages {A} (l : list A) : list (list A) := pages_upto (length l) l.

Fixpoint for_each {W A B} (f : A → M W B) (l : list A) : M W (list B) :=
  match l with
  | [] => mret []
  | a :: l' => b ← f a; bs ← for_each f l'; mret (b :: bs)
  end.

(** Modelled from the spec: the batched deletion boto3 offers on a
    collection, which is not in the repository.  [collection.delete()]
    sends one DeleteObjects request per page of the collection, none for an
    empty collection; the responses are returned as a list.  The pages are those of the listing at the start of the call,
    which is what the marker-based enumeration yields when nobody else
    writes to the bucket meanwhile. *)
Definition batch_delete (listing : pyval → M service (list object_identifier))
    (name : pyval) : M service (list (list object_identifier)) :=
  items ← listing name;
  for_each (delete_objects name) (pages items).

(** [s3.Bucket(name)] of boto3: the resource is its identifier, which must
    not be [None]. *)
Definition Bucket_resource (name : pyval) : outcome pyval :=
  match name with
  | VNone => Raise ValueError
  | _ => Return name
  end.

(** [bucket.objects.delete()] *)
Definition objects_delete : pyval → M service (list (list object_identifier)) :=
  batch_delete list_objects.

(** [bucket.object_versions.delete()] *)
Definition object_versions_delete : pyval → M service (list (list object_identifier)) :=
  batch_delete list_object_versions.

(** The bucket each of the two actions leaves behind, for the statements
    below. *)
Definition without_objects (b : bucket) : bucket :=
  delete_all b (map object_id (current_objects b)).

Definition without_versions (b : bucket) : bucket :=
  delete_all b (map object_version_id (entries b)).

End S3.
Export S3.

(** ** The hook *)
Module Hook.

Section Handler.

(** [str(v)] of a float, a list or a dictionary is the interpreter's own
    formatting and is taken as given. *)
Variable str_compound : pyval → string.

(** [str(v)], as an f-string field formats [v]. *)
Definition py_str (v : pyval) : string :=
  match v with
  | VNone => "None"
  | VBool true => "True"
  | VBool false => "False"
  | VInt z => NilZero.string_of_int (Z.to_int z)
  | VStr s => s
  | VFloat _ | VList _ | VDict _ => str_compound v
  end.

(** [empty_bucket], lines 35 to 53.  What it returns is the result of
    [bucket.objects.delete()], one response per page. *)
Definition empty_bucket (bucket_name : pyval) : M service (list (list object_identifier)) :=
  bucket ← lift (Bucket_resource bucket_name);
  delete_response ← objects_delete bucket;
  _ ← object_versions_delete bucket;
  mret delete_response.

(** The subscript chain of line 72. *)
Definition bucket_name_of (event : pyval) : outcome pyval :=
  request_data ← py_getitem event "requestData";
  target_model ← py_getitem request_data "targetModel";
  resource_properties ← py_getitem target_model "resourceProperties";
  py_getitem resource_properties "BucketName".

(** [lambda_handler], lines 56 to 80.  The [try] statement of lines 71 to
    75 either leaves the function with a verdict ([inl]) or binds
    [bucket_name] ([inr]). *)
Definition lambda_handler (event : pyval) : M service (gmap string pyval) :=
  unauthorized ← lift
    (py_or (py_not <$> py_get event "hookTypeName")
       (py_or (py_not <$> py_get event "actionInvocationPoint")
              (py_not <$> py_get event "clientRequestToken")));
  if (unauthorized : bool) then
    let error_msg := "This Lambda function can only be invoked by CloudFormation Hooks" in
    mret {[ "hookStatus" := VStr "FAILURE";
            "errorCode" := VStr "Unauthorized";
            "message" := VStr error_msg ]}
  else
    point ← lift (py_get event "actionInvocationPoint");
    if ne_str point "DELETE_PRE_PROVISION" then
      received ← lift (py_get event "actionInvocationPoint");
      let error_msg :=
        "This Lambda function is only authorized for DELETE_PRE_PROVISION operations, received: "
        +:+ py_str received in
      token ← lift (py_getitem event "clientRequestToken");
      mret {[ "hookStatus" := VStr "FAILURE";
              "errorCode" := VStr "Unauthorized";
              "message" := VStr error_msg;
              "clientRequestToken" := token ]}
    else
      extracted ← try_except_KeyError
        (bucket_name ← lift (bucket_name_of event);
         mret (inr bucket_name))
        (λ err,
         token ← lift (py_getitem event "clientRequestToken");
         mret (inl {[ "hookStatus" := VStr "FAILURE";
                      "errorCode" := VStr "NonCompliant";
                      "message" := VStr (repr_key err);
                      "clientRequestToken" := token ]}));
      match extracted with
      | inl verdict => mret verdict
      | inr bucket_name =>
          response ← empty_bucket bucket_name;
          token ← lift (py_getitem event "clientRequestToken");
          mret {[ "hookStatus" := VStr "SUCCESS";
                  "message" := VStr "compliant";
                  "clientRequestToken" := token ]}
      end.

End Handler.

End Hook.
Export Hook.

(** ** Shapes of events *)
Module Event.

(** The field [k] is there and is not empty: [event.get(k)] is truthy. *)
Definition has_field (d : gmap string pyval) (k : string) : bool :=
  truthy (default VNone (d !! k)).

(** The field [k] is missing, or holds a value Python counts as empty:
    the empty string, and also [None], [False], zero, an empty list or an
    empty dictionary. *)
Definition missing_or_empty (d : gmap string pyval) (k : string) : Prop :=
  has_field d k = false.

(** The three provenance fields are all there and none is empty. *)
Definition provenance (d : gmap string pyval) : bool :=
  has_field d "hookTypeName"
  && has_field d "actionInvocationPoint"
  && has_field d "clientRequestToken".

(** The lifecycle phase is the one the hook serves. *)
Definition delete_phase (d : gmap string pyval) : Prop :=
  d !! "actionInvocationPoint" = Some (VStr "DELETE_PRE_PROVISION").

(** The whole path [requestData.targetModel.resourceProperties.BucketName]
    is there and leads to [v]. *)
Definition bucket_name_at (d : gmap string pyval) (v : pyval) : Prop :=
  ∃ rd tm rp : gmap string pyval,
    d !! "requestData" = Some (VDict rd)
    ∧ rd !! "targetModel" = Some (VDict tm)
    ∧ tm !! "resourceProperties" = Some (VDict rp)
    ∧ rp !! "BucketName" = Some v.

(** The key [k] is the first one of the path that is absent from its
    dictionary. *)
Inductive absent_key (d : gmap string pyval) : string → Prop :=
| absent_requestData :
    d !! "requestData" = None →
    absent_key d "requestData"
| absent_targetModel (rd : gmap string pyval) :
    d !! "requestData" = Some (VDict rd) →
    rd !! "targetModel" = None →
    absent_key d "targetModel"
| absent_resourceProperties (rd tm : gmap string pyval) :
    d !! "requestData" = Some (VDict rd) →
    rd !! "targetModel" = Some (VDict tm) →
    tm !! "resourceProperties" = None →
    absent_key d "resourceProperties"
| absent_BucketName (rd tm rp : gmap string pyval) :
    d !! "requestData" = Some (VDict rd) →
    rd !! "targetModel" = Some (VDict tm) →
    tm !! "resourceProperties" = Some (VDict rp) →
    rp !! "BucketName" = None →
    absent_key d "BucketName".

(** The values whose [str()] is left to the interpreter. *)
Definition is_compound (v : pyval) : bool :=
  match v with
  | VFloat _ | VList _ | VDict _ => true
  | _ => false
  end.

Definition is_mapping (v : pyval) : bool :=
  match v with
  | VDict _ => true
  | _ => false
  end.

(** One of [requestData], [targetModel], [resourceProperties] is there, at
    the end of a path of dictionaries, and is not a dictionary itself. *)
Inductive segment_not_mapping (d : gmap string pyval) : Prop :=
| requestData_not_mapping (v : pyval) :
    d !! "requestData" = Some v →
    is_mapping v = false →
    segment_not_mapping d
| targetModel_not_mapping (rd : gmap string pyval) (v : pyval) :
    d !! "requestData" = Some (VDict rd) →
    rd !! "targetModel" = Some v →
    is_mapping v = false →
    segment_not_mapping d
| resourceProperties_not_mapping (rd tm : gmap string pyval) (v : pyval) :
    d !! "requestData" = Some (VDict rd) →
    rd !! "targetModel" = Some (VDict tm) →
    tm !! "resourceProperties" = Some v →
    is_mapping v = false →
    segment_not_mapping d.

End Event.
Export Event.

(** ** Worked events and buckets *)
Module Examples.

(** A formatting of floats, lists and dictionaries for the examples, none
    of which formats one. *)
Definition plain_str : pyval → string := λ _, "<object>".

Definition resource_properties (bucket_name : pyval) : gmap string pyval :=
  {[ "BucketName" := bucket_name ]}.

Definition target_model (bucket_name : pyval) : gmap string pyval :=
  {[ "resourceProperties" := VDict (resource_properties bucket_name) ]}.

Definition request_data (bucket_name : pyval) : gmap string pyval :=
  {[ "targetModel" := VDict (target_model bucket_name) ]}.

(** The event of a stack deletion that removes the bucket [my-bucket]. *)
Definition delete_event : gmap string pyval :=
  {[ "hookTypeName" := VStr "Private::S3::EmptyBucket";
     "actionInvocationPoint" := VStr "DELETE_PRE_PROVISION";
     "clientRequestToken" := VStr "token-1";
     "requestData" := VDict (request_data (VStr "my-bucket")) ]}.

(** The same event without its token. *)
Definition no_token_event : gmap string pyval :=
  delete "clientRequestToken" delete_event.

(** The same event for another lifecycle phase. *)
Definition create_event : gmap string pyval :=
  <["actionInvocationPoint" := VStr "CREATE_PRE_PROVISION"]> delete_event.

(** The same event with an empty lifecycle phase. *)
Definition empty_point_event : gmap string pyval :=
  <["actionInvocationPoint" := VStr ""]> delete_event.

(** The same event without a lifecycle phase. *)
Definition no_point_event : gmap string pyval :=
  delete "actionInvocationPoint" delete_event.

(** The same event with no bucket name among the resource properties. *)
Definition no_bucket_name_event : gmap string pyval :=
  <["requestData" :=
      VDict {[ "targetModel" := VDict {[ "resourceProperties" := VDict ∅ ]} ]}]>
    delete_event.

(** The same event with a string where the resource properties should
    be. *)
Definition string_properties_event : gmap string pyval :=
  <["requestData" :=
      VDict {[ "targetModel" := VDict {[ "resourceProperties" := VStr "none" ]} ]}]>
    delete_event.

(** The same event for a bucket the service does not have. *)
Definition stray_event : gmap string pyval :=
  <["requestData" := VDict (request_data (VStr "no-such-bucket"))]> delete_event.

(** A versioned bucket: [a.txt] was written twice, [b.txt] was written
    before versioning and deleted after. *)
Definition my_bucket : bucket :=
  Bucket Enabled
    [ Entry "a.txt" (Vid 2) false;
      Entry "b.txt" (Vid 1) true;
      Entry "a.txt" (Vid 0) false;
      Entry "b.txt" Null false ]
    3.

(** A bucket that never had versioning, with three objects. *)
Definition plain_bucket : bucket :=
  Bucket Unversioned
    [ Entry "a.txt" Null false;
      Entry "b.txt" Null false;
      Entry "c.txt" Null false ]
    0.

Definition my_service : service := Service {[ "my-bucket" := my_bucket ]} [].

Definition plain_service : service := Service {[ "my-bucket" := plain_bucket ]} [].

(** The same event with a number for bucket name, and with no bucket name
    at all ([null]). *)
Definition number_name_event : gmap string pyval :=
  <["requestData" := VDict (request_data (VInt 7))]> delete_event.

Definition null_name_event : gmap string pyval :=
  <["requestData" := VDict (request_data VNone)]> delete_event.

(** The same event from another hook type, with a field the handler does
    not know. *)
Definition relabelled_event : gmap string pyval :=
  <["hookTypeName" := VInt 1]> (<["awsAccountId" := VStr "123456789012"]> delete_event).

(** A versioned bucket whose only key has been deleted: no current object,
    two historical entries. *)
Definition archive_bucket : bucket :=
  Bucket Enabled
    [ Entry "a.txt" (Vid 1) true;
      Entry "a.txt" (Vid 0) false ]
    2.

Definition archive_service : service :=
  Service {[ "my-bucket" := archive_bucket; "other-bucket" := plain_bucket ]} [].

End Examples.
Export Examples.

(** ** The verdicts *)
Module Verdict.

(** The four dictionaries the handler returns, lines 63, 69, 75 and 80. *)
Definition hooks_only_verdict : gmap string pyval :=
  {[ "hookStatus" := VStr "FAILURE";
     "errorCode" := VStr "Unauthorized";
     "message" :=
       VStr "This Lambda function can only be invoked by CloudFormation Hooks" ]}.

Definition wrong_phase_verdict (received : string) (token : pyval) : gmap string pyval :=
  {[ "hookStatus" := VStr "FAILURE";
     "errorCode" := VStr "Unauthorized";
     "message" :=
       VStr ("This Lambda function is only authorized for DELETE_PRE_PROVISION operations, received: "
             +:+ received);
     "clientRequestToken" := token ]}.

Definition non_compliant_verdict (err : string) (token : pyval) : gmap string pyval :=
  {[ "hookStatus" := VStr "FAILURE";
     "errorCode" := VStr "NonCompliant";
     "message" := VStr (repr_key err);
     "clientRequestToken" := token ]}.

Definition success_verdict (token : pyval) : gmap string pyval :=
  {[ "hookStatus" := VStr "SUCCESS";
     "message" := VStr "compliant";
     "clientRequestToken" := token ]}.

(** The bucket the bulk delete leaves behind. *)
Definition emptied (b : bucket) : bucket := without_versions (without_objects b).

(** The seven ways through the handler, each with the condition that
    selects it and the result it ends with. *)
Inductive branch (str_compound : pyval → string) (event : pyval) (s : service)
    : outcome (gmap string pyval) * service → Prop :=
| branch_not_mapping :
    is_mapping event = false →
    branch str_compound event s (Raise AttributeError, s)
| branch_provenance (d : gmap string pyval) :
    event = VDict d →
    provenance d = false →
    branch str_compound event s (Return hooks_only_verdict, s)
| branch_phase (d : gmap string pyval) (point token : pyval) :
    event = VDict d →
    provenance d = true →
    d !! "actionInvocationPoint" = Some point →
    point ≠ VStr "DELETE_PRE_PROVISION" →
    d !! "clientRequestToken" = Some token →
    branch str_compound event s
      (Return (wrong_phase_verdict (py_str str_compound point) token), s)
| branch_key_error (d : gmap string pyval) (k : string) (token : pyval) :
    event = VDict d →
    provenance d = true →
    delete_phase d →
    absent_key d k →
    d !! "clientRequestToken" = Some token →
    branch str_compound event s (Return (non_compliant_verdict k token), s)
| branch_type_error (d : gmap string pyval) :
    event = VDict d →
    provenance d = true →
    delete_phase d →
    segment_not_mapping d →
    branch str_compound event s (Raise TypeError, s)
| branch_delete_raises (d : gmap string pyval) (name : pyval) (e : exn)
    (s' : service) :
    event = VDict d →
    provenance d = true →
    delete_phase d →
    bucket_name_at d name →
    empty_bucket name s = (Raise e, s') →
    branch str_compound event s (Raise e, s')
| branch_success (d : gmap string pyval) (name token : pyval)
    (r : list (list object_identifier)) (s' : service) :
    event = VDict d →
    provenance d = true →
    delete_phase d →
    bucket_name_at d name →
    empty_bucket name s = (Return r, s') →
    d !! "clientRequestToken" = Some token →
    branch str_compound event s (Return (success_verdict token), s').

End Verdict.
Export Verdict.

(** * Properties of the storage model *)
Module S3Facts.

Lemma pages_upto_concat {A} (fuel : nat) (l : list A) :
  concat (pages_upto fuel l) = l.
Proof.
  revert l. induction fuel as [|fuel IH]; intros [|a l]; try reflexivity.
  - cbn. by rewrite app_nil_r.
  - cbn [pages_upto concat]. rewrite IH. apply take_drop.
Qed.

(** The pages of a listing, put end to end, are the listing. *)
Lemma pages_concat {A} (l : list A) : concat (pages l) = l.
Proof. apply pages_upto_concat. Qed.

Lemma page_size_pos : 0 < page_size.
Proof. unfold page_size. lia. Qed.

Lemma pages_upto_bounded {A} (fuel : nat) (l : list A) :
  length l ≤ fuel →
  Forall (λ p, 0 < length p ≤ page_size) (pages_upto fuel l).
Proof.
  revert l. induction fuel as [|fuel IH]; intros [|a l] Hlen; cbn [pages_upto];
    try apply Forall_nil_2.
  - cbn in Hlen. lia.
  - pose proof page_size_pos as Hpos.
    apply Forall_cons_2.
    + rewrite length_take. cbn [length]. lia.
    + apply IH. rewrite length_drop. cbn [length] in *. lia.
Qed.

(** No page is empty and none has more than [page_size] elements. *)
Lemma pages_bounded {A} (l : list A) :
  Forall (λ p, 0 < length p ≤ page_size) (pages l).
Proof. by apply pages_upto_bounded. Qed.

Lemma pages_nil {A} : pages (@nil A) = [].
Proof. reflexivity. Qed.

(** *** Requests against a bucket *)

Lemma service_eta (s : service) : Service (buckets s) (requests s) = s.
Proof. by destruct s. Qed.

Lemma on_bucket_found {A} (n : string) (r : string → request)
    (f : bucket → A * bucket) (s : service) (b : bucket) :
  buckets s !! n = Some b →
  on_bucket (VStr n) r f s
  = (Return (f b).1, Service (<[n := (f b).2]> (buckets s)) (r n :: requests s)).
Proof. intros Hb. unfold on_bucket. by rewrite Hb. Qed.

Lemma on_bucket_missing {A} (n : string) (r : string → request)
    (f : bucket → A * bucket) (s : service) :
  buckets s !! n = None →
  on_bucket (VStr n) r f s = (Raise (ClientError "NoSuchBucket"), record (r n) s).
Proof. intros Hb. unfold on_bucket. by rewrite Hb. Qed.

Lemma list_objects_found (n : string) (s : service) (b : bucket) :
  buckets s !! n = Some b →
  list_objects (VStr n) s
  = (Return (map object_id (current_objects b)), record (ListObjects n) s).
Proof.
  intros Hb. unfold list_objects. rewrite (on_bucket_found _ _ _ _ b Hb).
  cbn [fst snd]. by rewrite insert_id.
Qed.

Lemma list_object_versions_found (n : string) (s : service) (b : bucket) :
  buckets s !! n = Some b →
  list_object_versions (VStr n) s
  = (Return (map object_version_id (entries b)), record (ListObjectVersions n) s).
Proof.
  intros Hb. unfold list_object_versions. rewrite (on_bucket_found _ _ _ _ b Hb).
  cbn [fst snd]. by rewrite insert_id.
Qed.

Lemma delete_objects_found (n : string) (objects : list object_identifier)
    (s : service) (b : bucket) :
  buckets s !! n = Some b →
  delete_objects (VStr n) objects s
  = (Return objects,
     Service (<[n := delete_all b objects]> (buckets s))
             (DeleteObjects n objects :: requests s)).
Proof. intros Hb. unfold delete_objects. by rewrite (on_bucket_found _ _ _ _ b Hb). Qed.

Lemma delete_all_concat (b : bucket) (ps : list (list object_identifier)) :
  foldl delete_all b ps = delete_all b (concat ps).
Proof.
  revert b. induction ps as [|p ps IH]; intros b; [done|].
  cbn [foldl concat]. rewrite IH. unfold delete_all. by rewrite foldl_app.
Qed.

(** One DeleteObjects request per page, in order; the bucket ends up as if
    the pages had been deleted in one go. *)
Lemma for_each_delete (n : string) (ps : list (list object_identifier)) :
  ∀ (s : service) (b : bucket),
    buckets s !! n = Some b →
    for_each (delete_objects (VStr n)) ps s
    = (Return ps,
       Service (<[n := delete_all b (concat ps)]> (buckets s))
               (rev (map (DeleteObjects n) ps) ++ requests s)).
Proof.
  induction ps as [|p ps IH]; intros s b Hb.
  - cbn. rewrite insert_id by done. by rewrite service_eta.
  - cbn [for_each]. unfold mbind at 1, M_bind.
    rewrite (delete_objects_found _ _ _ b Hb).
    unfold mbind at 1, M_bind.
    erewrite IH by (cbn; apply lookup_insert_eq).
    cbn [buckets requests mret M_ret]. rewrite insert_insert_eq.
    cbn [map rev concat]. rewrite <- app_assoc. cbn [app].
    unfold delete_all. by rewrite foldl_app.
Qed.

Lemma batch_delete_found (listing : pyval → M service (list object_identifier))
    (r : string → request) (items : bucket → list object_identifier)
    (n : string) (s : service) (b : bucket) :
  (∀ s b, buckets s !! n = Some b →
          listing (VStr n) s = (Return (items b), record (r n) s)) →
  buckets s !! n = Some b →
  batch_delete listing (VStr n) s
  = (Return (pages (items b)),
     Service (<[n := delete_all b (items b)]> (buckets s))
             (rev (map (DeleteObjects n) (pages (items b))) ++ r n :: requests s)).
Proof.
  intros Hlist Hb. unfold batch_delete, mbind, M_bind.
  rewrite (Hlist s b Hb).
  rewrite (for_each_delete n _ (record (r n) s) b) by done.
  by rewrite pages_concat.
Qed.

Lemma batch_delete_missing (listing : pyval → M service (list object_identifier))
    (r : string → request) (n : string) (s : service) :
  (∀ s, buckets s !! n = None →
        listing (VStr n) s = (Raise (ClientError "NoSuchBucket"), record (r n) s)) →
  buckets s !! n = None →
  batch_delete listing (VStr n) s
  = (Raise (ClientError "NoSuchBucket"), record (r n) s).
Proof.
  intros Hlist Hb. unfold batch_delete, mbind, M_bind. by rewrite (Hlist s Hb).
Qed.

(** [bucket.objects.delete()] on a bucket that exists. *)
Lemma objects_delete_found (n : string) (s : service) (b : bucket) :
  buckets s !! n = Some b →
  objects_delete (VStr n) s
  = (Return (pages (map object_id (current_objects b))),
     Service (<[n := without_objects b]> (buckets s))
             (rev (map (DeleteObjects n) (pages (map object_id (current_objects b))))
              ++ ListObjects n :: requests s)).
Proof.
  intros Hb. unfold objects_delete.
  apply (batch_delete_found list_objects ListObjects
           (λ b, map object_id (current_objects b))); [|done].
  intros. by apply list_objects_found.
Qed.

(** [bucket.object_versions.delete()] on a bucket that exists. *)
Lemma object_versions_delete_found (n : string) (s : service) (b : bucket) :
  buckets s !! n = Some b →
  object_versions_delete (VStr n) s
  = (Return (pages (map object_version_id (entries b))),
     Service (<[n := without_versions b]> (buckets s))
             (rev (map (DeleteObjects n) (pages (map object_version_id (entries b))))
              ++ ListObjectVersions n :: requests s)).
Proof.
  intros Hb. unfold object_versions_delete.
  apply (batch_delete_found list_object_versions ListObjectVersions
           (λ b, map object_version_id (entries b))); [|done].
  intros. by apply list_object_versions_found.
Qed.

(** *** What the two actions leave in a bucket *)

Lemma status_delete_object (b : bucket) (o : object_identifier) :
  status (delete_object b o) = status b.
Proof.
  unfold delete_object. destruct (VersionId o); [done|].
  by destruct (status b) eqn:Hs.
Qed.

Lemma status_delete_all (b : bucket) (objects : list object_identifier) :
  status (delete_all b objects) = status b.
Proof.
  revert b. induction objects as [|o objects IH]; intros b; [done|].
  unfold delete_all in *. cbn [foldl]. rewrite IH. apply status_delete_object.
Qed.

(** The latest entries, key by key. *)
Lemma newest_key (k : string) (es : list entry) (e : entry) :
  newest k es = Some e → key e = k.
Proof.
  induction es as [|e0 es IH]; cbn; [discriminate|].
  case_decide; [|done]. by intros [= <-].
Qed.

Lemma latest_newest (es : list entry) :
  ∀ (seen : list string) (e : entry),
    e ∈ latest seen es → (key e ∉ seen) ∧ newest (key e) es = Some e.
Proof.
  induction es as [|e0 es IH]; intros seen e He; cbn in He.
  - by apply elem_of_nil in He.
  - cbn. case_bool_decide as Hseen.
    + destruct (IH _ _ He) as [Hnot Hnew]. split; [done|].
      case_decide as Hkey; [|done]. by rewrite Hkey in Hseen.
    + apply elem_of_cons in He as [->|He].
      * split; [done|]. by case_decide.
      * destruct (IH _ _ He) as [Hnot Hnew].
        apply not_elem_of_cons in Hnot as [Hne Hnot]. split; [done|].
        case_decide as Hkey; [|done]. by rewrite Hkey in Hne.
Qed.

Lemma newest_latest (es : list entry) :
  ∀ (seen : list string) (k : string) (e : entry),
    newest k es = Some e → k ∉ seen → e ∈ latest seen es.
Proof.
  induction es as [|e0 es IH]; intros seen k e Hnew Hk; cbn in *; [done|].
  case_decide as Hkey.
  - injection Hnew as ->. subst k.
    rewrite bool_decide_eq_false_2 by done. apply list_elem_of_here.
  - case_bool_decide as Hseen; [by eapply IH|].
    apply list_elem_of_further. eapply IH; [done|].
    apply not_elem_of_cons. split; [congruence|done].
Qed.

Lemma current_objects_dead (b : bucket) :
  current_objects b = [] ↔ ∀ k, dead k (entries b).
Proof.
  unfold current_objects, dead. split.
  - intros Hnone k e Hnew.
    destruct (delete_marker e) eqn:Hmarker; [done|].
    assert (He : e ∈ filter (λ e, delete_marker e = false) (latest [] (entries b))).
    { apply list_elem_of_filter. split; [done|].
      eapply newest_latest; [done|]. apply not_elem_of_nil. }
    rewrite Hnone in He. by apply elem_of_nil in He.
  - intros Hdead. apply elem_of_nil_inv. intros e He.
    apply list_elem_of_filter in He as [Hlive He].
    apply latest_newest in He as [_ Hnew]. apply Hdead in Hnew. congruence.
Qed.

Lemma newest_remove_version_ne (k k0 : string) (v : version_id) (es : list entry) :
  k ≠ k0 → newest k (remove_version k0 v es) = newest k es.
Proof.
  intros Hk. unfold remove_version.
  induction es as [|e es IH]; [done|].
  rewrite filter_cons. cbn [newest].
  case_decide as Hkeep; cbn [newest]; case_decide as Hkey; try done.
  destruct Hkeep as [Hkey' _]. congruence.
Qed.

Lemma newest_remove_key_ne (k k0 : string) (es : list entry) :
  k ≠ k0 → newest k (remove_key k0 es) = newest k es.
Proof.
  intros Hk. unfold remove_key.
  induction es as [|e es IH]; [done|].
  rewrite filter_cons. cbn [newest].
  case_decide as Hkeep; cbn [newest]; case_decide as Hkey; try done.
  congruence.
Qed.

Lemma newest_remove_key (k : string) (es : list entry) :
  newest k (remove_key k es) = None.
Proof.
  unfold remove_key. induction es as [|e es IH]; [done|].
  rewrite filter_cons. case_decide as Hkeep; [|done].
  cbn [newest]. by case_decide.
Qed.

(** A delete without version id kills the key, whatever the versioning
    status, and leaves the latest entry of every other key alone. *)
Lemma delete_object_dead (b : bucket) (k : string) :
  dead k (entries (delete_object b (ObjectIdentifier k None))).
Proof.
  unfold dead, delete_object. cbn [VersionId Key].
  destruct (status b); cbn [entries newest]; intros e.
  - by rewrite newest_remove_key.
  - rewrite decide_True by done. by intros [= <-].
  - rewrite decide_True by done. by intros [= <-].
Qed.

Lemma delete_object_newest_ne (b : bucket) (k k0 : string) :
  k ≠ k0 →
  newest k (entries (delete_object b (ObjectIdentifier k0 None)))
  = newest k (entries b).
Proof.
  intros Hk. unfold delete_object. cbn [VersionId Key].
  destruct (status b); cbn [entries newest].
  - by apply newest_remove_key_ne.
  - by rewrite decide_False by done.
  - rewrite decide_False by done. by apply newest_remove_version_ne.
Qed.

Lemma delete_keys_newest (ks : list string) :
  ∀ (b : bucket) (k : string),
    let b' := delete_all b (map (λ k, ObjectIdentifier k None) ks) in
    (k ∈ ks → dead k (entries b'))
    ∧ (k ∉ ks → newest k (entries b') = newest k (entries b)).
Proof.
  induction ks as [|k0 ks IH]; intros b k; cbn zeta.
  - split; [|done]. intros Hk. by apply elem_of_nil in Hk.
  - unfold delete_all in *. cbn [map foldl].
    destruct (IH (delete_object b (ObjectIdentifier k0 None)) k) as [IHin IHout].
    split.
    + intros Hk. destruct (decide (k ∈ ks)) as [Hks|Hks]; [by apply IHin|].
      apply elem_of_cons in Hk as [->|Hk]; [|done].
      unfold dead. rewrite (IHout Hks). apply delete_object_dead.
    + intros Hk. apply not_elem_of_cons in Hk as [Hk0 Hks].
      rewrite (IHout Hks). by apply delete_object_newest_ne.
Qed.

(** [bucket.objects.delete()] leaves no current object.  In a versioned
    bucket the versions are all still there, under delete markers. *)
Lemma without_objects_current (b : bucket) : current_objects (without_objects b) = [].
Proof.
  apply current_objects_dead. intros k.
  unfold without_objects, object_id.
  rewrite <- (map_map key (λ k, ObjectIdentifier k None)).
  destruct (delete_keys_newest (map key (current_objects b)) b k) as [Hin Hout].
  destruct (decide (k ∈ map key (current_objects b))) as [Hk|Hk]; [by apply Hin|].
  intros e Hnew. rewrite (Hout Hk) in Hnew.
  destruct (delete_marker e) eqn:Hmarker; [done|].
  exfalso. apply Hk. apply list_elem_of_fmap. exists e.
  split; [symmetry; by eapply newest_key|].
  unfold current_objects. apply list_elem_of_filter. split; [done|].
  eapply newest_latest; [done|]. apply not_elem_of_nil.
Qed.

(** Every entry is a current object or a historical version, not both. *)
Lemma latest_superseded_length (es : list entry) :
  ∀ seen : list string,
    length (filter (λ e, delete_marker e = false) (latest seen es))
    + length (superseded seen es)
    = length es.
Proof.
  induction es as [|e es IH]; intros seen; [done|].
  cbn [latest superseded]. case_bool_decide as Hseen.
  - cbn [length]. rewrite <- (IH seen). lia.
  - rewrite filter_cons. destruct (delete_marker e) eqn:Hmarker.
    + rewrite decide_False by done. cbn [length].
      rewrite <- (IH (key e :: seen)). lia.
    + rewrite decide_True by done. cbn [length].
      rewrite <- (IH (key e :: seen)). lia.
Qed.

Lemma objects_and_versions (b : bucket) :
  length (current_objects b) + length (historical_versions b) = length (entries b).
Proof. apply latest_superseded_length. Qed.

(** On the versioned example bucket the first action only adds a delete
    marker on the one live key. *)
Example without_objects_my_bucket :
  without_objects my_bucket
  = Bucket Enabled (Entry "a.txt" (Vid 3) true :: entries my_bucket) 4.
Proof. reflexivity. Qed.

Example without_objects_plain_bucket :
  without_objects plain_bucket = Bucket Unversioned [] 0.
Proof. reflexivity. Qed.

(** An entry that survives the deletion of the versions [es] was there
    before and is none of [es]. *)
Lemma delete_versions_survivor (es : list entry) :
  ∀ (b : bucket) (e : entry),
    e ∈ entries (delete_all b (map object_version_id es)) →
    e ∈ entries b ∧ ∀ e', e' ∈ es → ¬ (key e = key e' ∧ version e = version e').
Proof.
  induction es as [|e0 es IH]; intros b e He.
  - split; [done|]. intros e' He'. by apply elem_of_nil in He'.
  - unfold delete_all in *. cbn [map foldl] in He.
    apply IH in He as [He Hes].
    unfold delete_object, object_version_id in He. cbn in He.
    unfold remove_version in He. apply list_elem_of_filter in He as [Hne He].
    split; [done|]. intros e' He'.
    apply elem_of_cons in He' as [->|He']; [done|]. by apply Hes.
Qed.

(** Deleting every listed version leaves nothing. *)
Lemma without_versions_entries (b : bucket) : entries (without_versions b) = [].
Proof.
  apply elem_of_nil_inv. intros e He.
  apply delete_versions_survivor in He as [He Hes].
  by apply (Hes e He).
Qed.

Lemma without_versions_status (b : bucket) :
  status (without_versions b) = status b.
Proof. apply status_delete_all. Qed.

Lemma no_entries_no_objects (b : bucket) :
  entries b = [] → current_objects b = [] ∧ historical_versions b = [].
Proof.
  intros Hb. unfold current_objects, historical_versions. by rewrite Hb.
Qed.

End S3Facts.

(** * Properties of the hook *)
Module HookFacts.
Import S3Facts.

(** *** The bulk delete *)

Lemma empty_bucket_found (n : string) (s : service) (b : bucket) :
  buckets s !! n = Some b →
  empty_bucket (VStr n) s
  = (Return (pages (map object_id (current_objects b))),
     Service
       (<[n := without_versions (without_objects b)]> (buckets s))
       (rev (map (DeleteObjects n)
               (pages (map object_version_id (entries (without_objects b)))))
        ++ ListObjectVersions n
        :: rev (map (DeleteObjects n) (pages (map object_id (current_objects b))))
        ++ ListObjects n :: requests s)).
Proof.
  intros Hb. unfold empty_bucket, lift, mbind, M_bind. cbn [Bucket_resource].
  rewrite (objects_delete_found n s b Hb).
  erewrite object_versions_delete_found by (cbn; apply lookup_insert_eq).
  cbn [buckets requests mret M_ret]. by rewrite insert_insert_eq.
Qed.

Lemma empty_bucket_missing (n : string) (s : service) :
  buckets s !! n = None →
  empty_bucket (VStr n) s
  = (Raise (ClientError "NoSuchBucket"), record (ListObjects n) s).
Proof.
  intros Hb. unfold empty_bucket, lift, mbind, M_bind. cbn [Bucket_resource].
  unfold objects_delete.
  rewrite (batch_delete_missing list_objects ListObjects); [done| |done].
  intros s' Hs'. unfold list_objects. by apply on_bucket_missing.
Qed.

(** A bulk delete that returns has sent requests. *)
Lemma empty_bucket_sends (name : pyval) (s s' : service)
    (r : list (list object_identifier)) :
  empty_bucket name s = (Return r, s') →
  ∃ (n : string) (rs : list request),
    name = VStr n ∧ requests s' = rs ++ ListObjects n :: requests s.
Proof.
  intros Hrun. destruct name as [| | | |n| |]; try discriminate Hrun.
  destruct (buckets s !! n) as [b|] eqn:Hb.
  - rewrite (empty_bucket_found n s b Hb) in Hrun.
    injection Hrun as _ <-. cbn [requests]. eexists n, _. split; [done|].
    rewrite app_comm_cons, app_assoc. reflexivity.
  - rewrite (empty_bucket_missing n s Hb) in Hrun. discriminate Hrun.
Qed.

(** *** The extraction of the bucket name *)

Lemma bucket_name_of_present (d : gmap string pyval) (v : pyval) :
  bucket_name_at d v ↔ bucket_name_of (VDict d) = Return v.
Proof.
  unfold bucket_name_at, bucket_name_of, mbind, outcome_bind, py_getitem. split.
  - intros (rd & tm & rp & -> & -> & -> & ->). reflexivity.
  - intros H.
    destruct (d !! "requestData") as [[| | | | | |rd]|]; try discriminate H.
    destruct (rd !! "targetModel") as [[| | | | | |tm]|] eqn:H2; try discriminate H.
    destruct (tm !! "resourceProperties") as [[| | | | | |rp]|] eqn:H3;
      try discriminate H.
    destruct (rp !! "BucketName") as [v'|] eqn:H4; try discriminate H.
    injection H as ->. by exists rd, tm, rp.
Qed.

Lemma bucket_name_of_absent (d : gmap string pyval) (k : string) :
  absent_key d k ↔ bucket_name_of (VDict d) = Raise (KeyError k).
Proof.
  unfold bucket_name_of, mbind, outcome_bind, py_getitem. split.
  - intros [H1|rd H1 H2|rd tm H1 H2 H3|rd tm rp H1 H2 H3 H4];
      rewrite H1; try rewrite H2; try rewrite H3; try rewrite H4; reflexivity.
  - intros H.
    destruct (d !! "requestData") as [[| | | | | |rd]|] eqn:H1; try discriminate H;
      [|injection H as <-; by constructor].
    destruct (rd !! "targetModel") as [[| | | | | |tm]|] eqn:H2; try discriminate H;
      [|injection H as <-; by econstructor].
    destruct (tm !! "resourceProperties") as [[| | | | | |rp]|] eqn:H3;
      try discriminate H; [|injection H as <-; by econstructor].
    destruct (rp !! "BucketName") as [v'|] eqn:H4; try discriminate H.
    injection H as <-. by econstructor.
Qed.

Lemma bucket_name_of_not_mapping (d : gmap string pyval) :
  segment_not_mapping d ↔ bucket_name_of (VDict d) = Raise TypeError.
Proof.
  unfold bucket_name_of, mbind, outcome_bind, py_getitem. split.
  - intros [v H1 Hv|rd v H1 H2 Hv|rd tm v H1 H2 H3 Hv];
      rewrite H1; try rewrite H2; try rewrite H3; by destruct v.
  - intros H.
    destruct (d !! "requestData") as [v1|] eqn:H1; try discriminate H.
    destruct v1 as [| | | | | |rd];
      try (by eapply requestData_not_mapping).
    destruct (rd !! "targetModel") as [v2|] eqn:H2; try discriminate H.
    destruct v2 as [| | | | | |tm];
      try (by eapply targetModel_not_mapping).
    destruct (tm !! "resourceProperties") as [v3|] eqn:H3; try discriminate H.
    destruct v3 as [| | | | | |rp];
      try (by eapply resourceProperties_not_mapping).
    destruct (rp !! "BucketName"); discriminate H.
Qed.

(** The extraction returns, or raises [KeyError] for an absent key, or
    raises [TypeError]; nothing else. *)
Lemma bucket_name_of_cases (d : gmap string pyval) :
  (∃ v, bucket_name_of (VDict d) = Return v)
  ∨ (∃ k, bucket_name_of (VDict d) = Raise (KeyError k))
  ∨ bucket_name_of (VDict d) = Raise TypeError.
Proof.
  unfold bucket_name_of, mbind, outcome_bind, py_getitem.
  destruct (d !! "requestData") as [[| | | | | |rd]|]; eauto.
  destruct (rd !! "targetModel") as [[| | | | | |tm]|]; eauto.
  destruct (tm !! "resourceProperties") as [[| | | | | |rp]|]; eauto.
  destruct (rp !! "BucketName"); eauto.
Qed.

(** *** The handler, branch by branch *)
Section Branches.

Variable str_compound : pyval → string.

Example py_str_values :
  py_str str_compound (VStr "CREATE_PRE_PROVISION") = "CREATE_PRE_PROVISION"
  ∧ py_str str_compound (VInt 0) = "0"
  ∧ py_str str_compound (VInt (-12)) = "-12"
  ∧ py_str str_compound (VBool true) = "True".
Proof. repeat split. Qed.

(** What [missing_or_empty] covers. *)
Lemma missing_or_empty_cases (d : gmap string pyval) (k : string) :
  missing_or_empty d k
  ↔ d !! k = None
    ∨ d !! k = Some VNone
    ∨ d !! k = Some (VBool false)
    ∨ d !! k = Some (VInt 0)
    ∨ (∃ f, d !! k = Some (VFloat f) ∧ PrimFloat.eqb f PrimFloat.zero = true)
    ∨ d !! k = Some (VStr "")
    ∨ d !! k = Some (VList [])
    ∨ d !! k = Some (VDict ∅).
Proof.
  unfold missing_or_empty, has_field. split.
  - destruct (d !! k) as [[|[]|z|f|p|[|v l]|m]|]; cbn; intros H;
      try discriminate H; auto 10.
    + apply negb_false_iff, Z.eqb_eq in H as ->. auto 10.
    + apply negb_false_iff in H. eauto 10.
    + apply negb_false_iff, String.eqb_eq in H as ->. auto 10.
    + apply negb_false_iff, bool_decide_eq_true in H as ->. auto 10.
  - intros [->|[->|[->|[->|[(f & -> & Hf)|[->|[->| ->]]]]]]]; cbn;
      try reflexivity. by rewrite Hf.
Qed.

Lemma has_field_lookup (d : gmap string pyval) (k : string) :
  has_field d k = true → ∃ v, d !! k = Some v ∧ truthy v = true.
Proof.
  unfold has_field. destruct (d !! k) as [v|]; [eauto|discriminate].
Qed.

Lemma provenance_fields (d : gmap string pyval) :
  provenance d = true →
  has_field d "hookTypeName" = true
  ∧ has_field d "actionInvocationPoint" = true
  ∧ has_field d "clientRequestToken" = true.
Proof.
  unfold provenance. intros H.
  apply andb_true_iff in H as [H H3]. apply andb_true_iff in H as [H1 H2]. done.
Qed.

Lemma provenance_token (d : gmap string pyval) :
  provenance d = true → ∃ token, d !! "clientRequestToken" = Some token.
Proof.
  intros H. apply provenance_fields in H as (_ & _ & H).
  apply has_field_lookup in H as (v & Hv & _). eauto.
Qed.

(** The condition of line 60. *)
Lemma provenance_check (d : gmap string pyval) :
  py_or (py_not <$> py_get (VDict d) "hookTypeName")
    (py_or (py_not <$> py_get (VDict d) "actionInvocationPoint")
           (py_not <$> py_get (VDict d) "clientRequestToken"))
  = Return (negb (provenance d)).
Proof.
  unfold provenance, has_field, py_get, py_not, py_or, fmap, outcome_fmap.
  destruct (truthy (default VNone (d !! "hookTypeName")));
    destruct (truthy (default VNone (d !! "actionInvocationPoint")));
    destruct (truthy (default VNone (d !! "clientRequestToken")));
    reflexivity.
Qed.

(** An event that is not a dictionary has no [get]. *)
Lemma handler_not_mapping (event : pyval) (s : service) :
  is_mapping event = false →
  lambda_handler str_compound event s = (Raise AttributeError, s).
Proof. intros H. by destruct event. Qed.

(** Lines 60 to 63. *)
Lemma handler_unauthorized (d : gmap string pyval) (s : service) :
  provenance d = false →
  lambda_handler str_compound (VDict d) s
  = (Return {[ "hookStatus" := VStr "FAILURE";
               "errorCode" := VStr "Unauthorized";
               "message" :=
                 VStr "This Lambda function can only be invoked by CloudFormation Hooks" ]},
     s).
Proof.
  intros H. unfold lambda_handler, lift, mbind, M_bind.
  rewrite provenance_check, H. reflexivity.
Qed.

(** Lines 66 to 69. *)
Lemma handler_wrong_phase (d : gmap string pyval) (s : service) (point token : pyval) :
  provenance d = true →
  d !! "actionInvocationPoint" = Some point →
  ne_str point "DELETE_PRE_PROVISION" = true →
  d !! "clientRequestToken" = Some token →
  lambda_handler str_compound (VDict d) s
  = (Return {[ "hookStatus" := VStr "FAILURE";
               "errorCode" := VStr "Unauthorized";
               "message" :=
                 VStr ("This Lambda function is only authorized for DELETE_PRE_PROVISION operations, received: "
                       +:+ py_str str_compound point);
               "clientRequestToken" := token ]},
     s).
Proof.
  intros H Hpoint Hne Htoken. unfold lambda_handler, lift, mbind, M_bind.
  rewrite provenance_check, H. unfold py_get, py_getitem.
  rewrite Hpoint, Htoken. cbn [negb default from_option id]. rewrite Hne. reflexivity.
Qed.

(** Past both checks the handler is the extraction followed by the bulk
    delete. *)
Lemma handler_delete_phase (d : gmap string pyval) (s : service) (token : pyval) :
  provenance d = true →
  delete_phase d →
  d !! "clientRequestToken" = Some token →
  lambda_handler str_compound (VDict d) s
  = match bucket_name_of (VDict d) with
    | Return bucket_name =>
        match empty_bucket bucket_name s with
        | (Return _, s') =>
            (Return {[ "hookStatus" := VStr "SUCCESS";
                       "message" := VStr "compliant";
                       "clientRequestToken" := token ]},
             s')
        | (Raise e, s') => (Raise e, s')
        end
    | Raise (KeyError err) =>
        (Return {[ "hookStatus" := VStr "FAILURE";
                   "errorCode" := VStr "NonCompliant";
                   "message" := VStr (repr_key err);
                   "clientRequestToken" := token ]},
         s)
    | Raise e => (Raise e, s)
    end.
Proof.
  intros H Hpoint Htoken. unfold lambda_handler, lift, mbind, M_bind.
  rewrite provenance_check, H. unfold py_get, py_getitem, try_except_KeyError.
  rewrite Hpoint, Htoken. cbn [negb default from_option id ne_str].
  rewrite String.eqb_refl. cbn [negb].
  by destruct (bucket_name_of (VDict d)) as [name|[]].
Qed.

(** Lines 71 to 75, the [except] clause. *)
Lemma handler_key_error (d : gmap string pyval) (s : service) (k : string)
    (token : pyval) :
  provenance d = true →
  delete_phase d →
  absent_key d k →
  d !! "clientRequestToken" = Some token →
  lambda_handler str_compound (VDict d) s
  = (Return {[ "hookStatus" := VStr "FAILURE";
               "errorCode" := VStr "NonCompliant";
               "message" := VStr (repr_key k);
               "clientRequestToken" := token ]},
     s).
Proof.
  intros H Hpoint Hk Htoken. rewrite (handler_delete_phase d s token) by done.
  apply bucket_name_of_absent in Hk. by rewrite Hk.
Qed.

(** Line 72, when the subscript chain raises [TypeError]. *)
Lemma handler_type_error (d : gmap string pyval) (s : service) :
  provenance d = true →
  delete_phase d →
  segment_not_mapping d →
  lambda_handler str_compound (VDict d) s = (Raise TypeError, s).
Proof.
  intros H Hpoint Hseg.
  destruct (provenance_token d H) as [token Htoken].
  rewrite (handler_delete_phase d s token) by done.
  apply bucket_name_of_not_mapping in Hseg. by rewrite Hseg.
Qed.

(** Lines 77 to 80. *)
Lemma handler_deletes (d : gmap string pyval) (s : service) (name token : pyval) :
  provenance d = true →
  delete_phase d →
  bucket_name_at d name →
  d !! "clientRequestToken" = Some token →
  lambda_handler str_compound (VDict d) s
  = match empty_bucket name s with
    | (Return _, s') =>
        (Return {[ "hookStatus" := VStr "SUCCESS";
                   "message" := VStr "compliant";
                   "clientRequestToken" := token ]},
         s')
    | (Raise e, s') => (Raise e, s')
    end.
Proof.
  intros H Hpoint Hname Htoken. rewrite (handler_delete_phase d s token) by done.
  apply bucket_name_of_present in Hname. by rewrite Hname.
Qed.

(** An event is in the delete phase or fails the comparison of line 66. *)
Lemma phase_cases (d : gmap string pyval) :
  delete_phase d
  ∨ ne_str (default VNone (d !! "actionInvocationPoint")) "DELETE_PRE_PROVISION" = true.
Proof.
  unfold delete_phase.
  destruct (d !! "actionInvocationPoint") as [[| | | |p| |]|]; cbn; auto.
  destruct (String.eqb p "DELETE_PRE_PROVISION") eqn:Hp; cbn; auto.
  apply String.eqb_eq in Hp as ->. auto.
Qed.

(** What the f-string of line 67 puts in the message, kind by kind. *)
Lemma py_str_kinds (point : pyval) :
  (∀ p, point = VStr p → py_str str_compound point = p)
  ∧ (point = VBool true → py_str str_compound point = "True")
  ∧ (∀ z, point = VInt z
          → py_str str_compound point = NilZero.string_of_int (Z.to_int z))
  ∧ (is_compound point = true → py_str str_compound point = str_compound point).
Proof.
  split; [by intros p ->|]. split; [by intros ->|]. split; [by intros z ->|].
  by destruct point.
Qed.

Lemma ne_str_spec (v : pyval) (lit : string) :
  ne_str v lit = true ↔ v ≠ VStr lit.
Proof.
  destruct v as [| | | |p| |]; cbn; try (split; [discriminate|done]).
  destruct (String.eqb p lit) eqn:Hp; cbn.
  - apply String.eqb_eq in Hp as ->. split; [discriminate|done].
  - apply String.eqb_neq in Hp. split; [congruence|done].
Qed.

End Branches.

End HookFacts.

(** * The behaviour of the hook *)
Module Claims.
Import S3Facts HookFacts.

Section Verdicts.

Variable str_compound : pyval → string.

(** C1.  A well-formed event (the three provenance fields non-empty, the
    phase [DELETE_PRE_PROVISION], the whole path to [BucketName] present)
    that names a bucket of the service, whatever its current objects and
    historical versions: the handler returns the verdict [SUCCESS],
    [compliant], with the token of the event, and afterwards the bucket has
    no current object and no historical version. *)
Theorem well_formed_event_empties_bucket (d : gmap string pyval) (n : string)
    (b : bucket) (s : service) :
  provenance d = true →
  delete_phase d →
  bucket_name_at d (VStr n) →
  buckets s !! n = Some b →
  ∃ (token : pyval) (s' : service) (b' : bucket),
    d !! "clientRequestToken" = Some token
    ∧ lambda_handler str_compound (VDict d) s
      = (Return {[ "hookStatus" := VStr "SUCCESS";
                   "message" := VStr "compliant";
                   "clientRequestToken" := token ]},
         s')
    ∧ buckets s' !! n = Some b'
    ∧ current_objects b' = []
    ∧ historical_versions b' = [].
Proof.
  intros Hprov Hphase Hname Hb.
  destruct (provenance_token d Hprov) as [token Htoken].
  exists token. eexists. exists (without_versions (without_objects b)).
  split; [done|].
  rewrite (handler_deletes str_compound d s (VStr n) token) by done.
  rewrite (empty_bucket_found n s b Hb).
  split; [reflexivity|]. split; [apply lookup_insert_eq|].
  apply no_entries_no_objects, without_versions_entries.
Qed.

(** C2.  An event in which one of [hookTypeName], [actionInvocationPoint]
    and [clientRequestToken] is missing or empty: the handler returns the
    verdict [FAILURE], [Unauthorized], with the message that it can only be
    invoked by CloudFormation Hooks, and the verdict has no
    [clientRequestToken] field. *)
Theorem missing_provenance_unauthorized (d : gmap string pyval) (s : service) :
  missing_or_empty d "hookTypeName"
  ∨ missing_or_empty d "actionInvocationPoint"
  ∨ missing_or_empty d "clientRequestToken" →
  ∃ verdict : gmap string pyval,
    lambda_handler str_compound (VDict d) s = (Return verdict, s)
    ∧ verdict !! "hookStatus" = Some (VStr "FAILURE")
    ∧ verdict !! "errorCode" = Some (VStr "Unauthorized")
    ∧ verdict !! "message"
      = Some (VStr "This Lambda function can only be invoked by CloudFormation Hooks")
    ∧ verdict !! "clientRequestToken" = None.
Proof.
  intros Hmissing. eexists. split.
  - apply handler_unauthorized. unfold provenance, missing_or_empty in *.
    destruct Hmissing as [->|[->| ->]]; rewrite ?andb_false_r; reflexivity.
  - repeat split; reflexivity.
Qed.

(** C3.  An event that passes the check of the three fields and whose
    [actionInvocationPoint] is not exactly [DELETE_PRE_PROVISION]: the
    handler returns the verdict [FAILURE], [Unauthorized], with the token
    of the event and with a message that ends with the value received:
    the value itself when it is a string, [True] for the boolean, the
    decimal digits of an integer, and the interpreter's formatting of a
    float, a list or a dictionary. *)
Theorem other_phase_unauthorized (d : gmap string pyval) (s : service)
    (point : pyval) :
  provenance d = true →
  d !! "actionInvocationPoint" = Some point →
  point ≠ VStr "DELETE_PRE_PROVISION" →
  ∃ (token : pyval) (received : string),
    d !! "clientRequestToken" = Some token
    ∧ lambda_handler str_compound (VDict d) s
      = (Return {[ "hookStatus" := VStr "FAILURE";
                   "errorCode" := VStr "Unauthorized";
                   "message" :=
                     VStr ("This Lambda function is only authorized for DELETE_PRE_PROVISION operations, received: "
                           +:+ received);
                   "clientRequestToken" := token ]},
         s)
    ∧ (∀ p, point = VStr p → received = p)
    ∧ (point = VBool true → received = "True")
    ∧ (∀ z, point = VInt z → received = NilZero.string_of_int (Z.to_int z))
    ∧ (is_compound point = true → received = str_compound point).
Proof.
  intros Hprov Hpoint Hne.
  destruct (provenance_token d Hprov) as [token Htoken].
  exists token, (py_str str_compound point). split; [done|]. split.
  - apply handler_wrong_phase; [done..| |done]. by apply ne_str_spec.
  - apply py_str_kinds.
Qed.

(** C4.  An event that passes both checks and in which a key of the path
    [requestData.targetModel.resourceProperties.BucketName] is absent from
    its dictionary: the handler returns the verdict [FAILURE],
    [NonCompliant], with the absent key, quoted, as its message and with the
    token of the event. *)
Theorem absent_key_non_compliant (d : gmap string pyval) (s : service)
    (k : string) :
  provenance d = true →
  delete_phase d →
  absent_key d k →
  ∃ token : pyval,
    d !! "clientRequestToken" = Some token
    ∧ lambda_handler str_compound (VDict d) s
      = (Return {[ "hookStatus" := VStr "FAILURE";
                   "errorCode" := VStr "NonCompliant";
                   "message" := VStr ("'" +:+ k +:+ "'");
                   "clientRequestToken" := token ]},
         s).
Proof.
  intros Hprov Hphase Hk.
  destruct (provenance_token d Hprov) as [token Htoken].
  exists token. split; [done|]. by apply handler_key_error.
Qed.

(** C5.  An event that passes the three validation steps: an exception
    raised by [empty_bucket] is raised by the handler, which returns no
    verdict. *)
Theorem deletion_fault_propagates (d : gmap string pyval) (s s' : service)
    (name : pyval) (e : exn) :
  provenance d = true →
  delete_phase d →
  bucket_name_at d name →
  empty_bucket name s = (Raise e, s') →
  lambda_handler str_compound (VDict d) s = (Raise e, s').
Proof.
  intros Hprov Hphase Hname Hfault.
  destruct (provenance_token d Hprov) as [token Htoken].
  rewrite (handler_deletes str_compound d s name token) by done.
  by rewrite Hfault.
Qed.

(** C6.  Whatever the event, when the handler returns a verdict with a
    [clientRequestToken] field, the event is a dictionary with a
    [clientRequestToken] field and the two values are the same. *)
Theorem token_is_echoed (event : pyval) (s s' : service)
    (verdict : gmap string pyval) (token : pyval) :
  lambda_handler str_compound event s = (Return verdict, s') →
  verdict !! "clientRequestToken" = Some token →
  ∃ d : gmap string pyval,
    event = VDict d ∧ d !! "clientRequestToken" = Some token.
Proof.
  intros Hrun Htoken.
  destruct (is_mapping event) eqn:Hevent.
  2: { by rewrite handler_not_mapping in Hrun. }
  destruct event as [| | | | | |d]; try discriminate Hevent. clear Hevent.
  exists d. split; [done|].
  destruct (provenance d) eqn:Hprov.
  2: { rewrite handler_unauthorized in Hrun by done.
       injection Hrun as <- <-. discriminate Htoken. }
  destruct (provenance_token d Hprov) as [token' Htoken'].
  destruct (phase_cases d) as [Hphase|Hphase].
  - rewrite (handler_delete_phase str_compound d s token') in Hrun by done.
    destruct (bucket_name_of (VDict d)) as [name|[]]; try discriminate Hrun.
    + destruct (empty_bucket name s) as [[r|e] s'']; try discriminate Hrun.
      injection Hrun as <- <-. by simplify_map_eq.
    + injection Hrun as <- <-. by simplify_map_eq.
  - apply provenance_fields in Hprov as Hfields.
    destruct Hfields as (_ & Hpoint & _).
    apply has_field_lookup in Hpoint as (point & Hpoint & _).
    rewrite Hpoint in Hphase. cbn in Hphase.
    rewrite (handler_wrong_phase str_compound d s point token') in Hrun by done.
    injection Hrun as <- <-. by simplify_map_eq.
Qed.

(** C7.  The bulk delete on a bucket of the service, in any state, twice
    in a row: the second call returns, as the first does, it sends no
    DeleteObjects request, it leaves the buckets as the first call left
    them, and the bucket is empty.  In the emptied bucket every object is
    absent, and a DeleteObjects request for any objects returns normally. *)
Theorem empty_bucket_twice (n : string) (b : bucket) (s : service) :
  buckets s !! n = Some b →
  ∃ (r1 : list (list object_identifier)) (s1 s2 : service) (b2 : bucket),
    empty_bucket (VStr n) s = (Return r1, s1)
    ∧ empty_bucket (VStr n) s1 = (Return [], s2)
    ∧ requests s2 = ListObjectVersions n :: ListObjects n :: requests s1
    ∧ buckets s2 = buckets s1
    ∧ buckets s2 !! n = Some b2
    ∧ current_objects b2 = []
    ∧ historical_versions b2 = []
    ∧ ∀ objects : list object_identifier,
        ∃ s3 : service, delete_objects (VStr n) objects s1 = (Return objects, s3).
Proof.
  intros Hb. set (b1 := without_versions (without_objects b)).
  assert (Hentries : entries b1 = []) by apply without_versions_entries.
  assert (Hcurrent : current_objects b1 = [])
    by (by apply no_entries_no_objects).
  assert (Hobjects : without_objects b1 = b1).
  { unfold without_objects. by rewrite Hcurrent. }
  assert (Hversions : without_versions b1 = b1).
  { unfold without_versions. by rewrite Hentries. }
  eexists _, _, _, b1. split; [apply (empty_bucket_found n s b Hb)|].
  match goal with |- context [empty_bucket _ ?st = _] => set (s1 := st) end.
  assert (Hb1 : buckets s1 !! n = Some b1) by apply lookup_insert_eq.
  rewrite (empty_bucket_found n s1 b1 Hb1).
  rewrite Hobjects, Hversions, Hcurrent, Hentries.
  cbn [map pages pages_upto length rev app].
  rewrite insert_id by done.
  split; [reflexivity|]. cbn [requests buckets].
  split; [reflexivity|]. split; [reflexivity|]. split; [done|].
  split; [done|]. split; [by apply no_entries_no_objects|].
  intros objects. eexists. by apply (delete_objects_found n objects s1 b1).
Qed.

(** C8, as the handler has it.  An event whose [actionInvocationPoint] is
    not [DELETE_PRE_PROVISION]: the handler returns a verdict [FAILURE],
    [Unauthorized].  When the three provenance fields are non-empty the
    message ends with the value received (the value itself when it is a
    string, [True] for the boolean, the decimal digits of an integer, the
    interpreter's formatting of a float, a list or a dictionary) and the
    token of the event is echoed; when one of them is missing or empty, the
    phase included, the message is the one of the provenance check and
    there is no token. *)
Theorem not_delete_phase_unauthorized (d : gmap string pyval) (s : service) :
  ¬ delete_phase d →
  ∃ verdict : gmap string pyval,
    lambda_handler str_compound (VDict d) s = (Return verdict, s)
    ∧ verdict !! "hookStatus" = Some (VStr "FAILURE")
    ∧ verdict !! "errorCode" = Some (VStr "Unauthorized")
    ∧ (provenance d = true →
       ∃ (point : pyval) (received : string),
         d !! "actionInvocationPoint" = Some point
         ∧ verdict !! "message"
           = Some (VStr ("This Lambda function is only authorized for DELETE_PRE_PROVISION operations, received: "
                         +:+ received))
         ∧ (∀ p, point = VStr p → received = p)
         ∧ (point = VBool true → received = "True")
         ∧ (∀ z, point = VInt z → received = NilZero.string_of_int (Z.to_int z))
         ∧ (is_compound point = true → received = str_compound point)
         ∧ verdict !! "clientRequestToken" = d !! "clientRequestToken")
    ∧ (provenance d = false →
       verdict !! "message"
       = Some (VStr "This Lambda function can only be invoked by CloudFormation Hooks")
       ∧ verdict !! "clientRequestToken" = None).
Proof.
  intros Hphase. destruct (provenance d) eqn:Hprov.
  - destruct (provenance_token d Hprov) as [token Htoken].
    apply provenance_fields in Hprov as Hfields.
    destruct Hfields as (_ & Hpoint & _).
    apply has_field_lookup in Hpoint as (point & Hpoint & _).
    eexists. split.
    + apply (handler_wrong_phase str_compound d s point token); try done.
      apply ne_str_spec. intros ->. by apply Hphase.
    + split; [reflexivity|]. split; [reflexivity|]. split; [|discriminate].
      intros _. exists point, (py_str str_compound point).
      split; [done|]. split; [reflexivity|].
      destruct (py_str_kinds str_compound point) as (Hs & Hb & Hz & Hc).
      repeat (split; [done|]).
      rewrite Htoken. by simplify_map_eq.
  - eexists. split; [by apply handler_unauthorized|].
    split; [reflexivity|]. split; [reflexivity|]. split; [discriminate|].
    intros _. split; reflexivity.
Qed.

(** C9.  An event that fails the provenance check, the phase check or the
    extraction of the bucket name for want of a key: the handler returns a
    verdict [FAILURE] and leaves the service as it found it, no request
    sent and no bucket changed. *)
Theorem validation_failure_deletes_nothing (d : gmap string pyval) (s : service) :
  provenance d = false ∨ ¬ delete_phase d ∨ (∃ k, absent_key d k) →
  ∃ verdict : gmap string pyval,
    lambda_handler str_compound (VDict d) s = (Return verdict, s)
    ∧ verdict !! "hookStatus" = Some (VStr "FAILURE").
Proof.
  intros Hfails. destruct (provenance d) eqn:Hprov.
  2: { eexists. split; [by apply handler_unauthorized|reflexivity]. }
  destruct (provenance_token d Hprov) as [token Htoken].
  destruct (phase_cases d) as [Hphase|Hphase].
  - destruct Hfails as [Hfails|[Hfails|[k Hk]]]; [discriminate|done|].
    eexists. split; [by apply (handler_key_error str_compound d s k token)|].
    reflexivity.
  - apply provenance_fields in Hprov as Hfields.
    destruct Hfields as (_ & Hpoint & _).
    apply has_field_lookup in Hpoint as (point & Hpoint & _).
    rewrite Hpoint in Hphase. cbn in Hphase.
    eexists. split; [by apply (handler_wrong_phase str_compound d s point token)|].
    reflexivity.
Qed.

(** C10.  There is an event that passes both checks, with a segment of the
    path present that is not a mapping, on which the handler returns no
    verdict: the [TypeError] of the subscript is not caught by the
    [except KeyError] clause and leaves the handler. *)
Theorem type_error_escapes :
  ∃ d : gmap string pyval,
    provenance d = true
    ∧ delete_phase d
    ∧ segment_not_mapping d
    ∧ ∀ s : service, lambda_handler str_compound (VDict d) s = (Raise TypeError, s).
Proof.
  assert (Hseg : segment_not_mapping string_properties_event).
  { by apply (resourceProperties_not_mapping _
                {[ "targetModel" := VDict {[ "resourceProperties" := VStr "none" ]} ]}
                {[ "resourceProperties" := VStr "none" ]} (VStr "none")). }
  exists string_properties_event. split; [reflexivity|]. split; [reflexivity|].
  split; [done|]. intros s. by apply handler_type_error.
Qed.

End Verdicts.

(** *** The statements above on the worked events *)

(** The scenario of a bucket with three objects and no versioning: one
    page of three keys is deleted, the listing of versions that follows is
    empty. *)
Example three_objects_scenario :
  lambda_handler plain_str (VDict delete_event) plain_service
  = (Return {[ "hookStatus" := VStr "SUCCESS";
               "message" := VStr "compliant";
               "clientRequestToken" := VStr "token-1" ]},
     Service {[ "my-bucket" := Bucket Unversioned [] 0 ]}
       [ ListObjectVersions "my-bucket";
         DeleteObjects "my-bucket"
           [ ObjectIdentifier "a.txt" None;
             ObjectIdentifier "b.txt" None;
             ObjectIdentifier "c.txt" None ];
         ListObjects "my-bucket" ]).
Proof. reflexivity. Qed.

Lemma well_formed_event_empties_bucket_witness :
  ∃ (token : pyval) (s' : service) (b' : bucket),
    delete_event !! "clientRequestToken" = Some token
    ∧ lambda_handler plain_str (VDict delete_event) my_service
      = (Return {[ "hookStatus" := VStr "SUCCESS";
                   "message" := VStr "compliant";
                   "clientRequestToken" := token ]},
         s')
    ∧ buckets s' !! "my-bucket" = Some b'
    ∧ current_objects b' = []
    ∧ historical_versions b' = [].
Proof.
  apply (well_formed_event_empties_bucket plain_str delete_event "my-bucket"
           my_bucket my_service).
  - reflexivity.
  - reflexivity.
  - exists (request_data (VStr "my-bucket")), (target_model (VStr "my-bucket")),
      (resource_properties (VStr "my-bucket")).
    repeat split; reflexivity.
  - reflexivity.
Defined.

Lemma missing_provenance_unauthorized_witness :
  ∃ verdict : gmap string pyval,
    lambda_handler plain_str (VDict no_token_event) my_service
    = (Return verdict, my_service)
    ∧ verdict !! "hookStatus" = Some (VStr "FAILURE")
    ∧ verdict !! "errorCode" = Some (VStr "Unauthorized")
    ∧ verdict !! "message"
      = Some (VStr "This Lambda function can only be invoked by CloudFormation Hooks")
    ∧ verdict !! "clientRequestToken" = None.
Proof.
  apply (missing_provenance_unauthorized plain_str no_token_event my_service).
  right. right. reflexivity.
Defined.

Lemma other_phase_unauthorized_witness :
  lambda_handler plain_str (VDict create_event) my_service
  = (Return {[ "hookStatus" := VStr "FAILURE";
               "errorCode" := VStr "Unauthorized";
               "message" :=
                 VStr "This Lambda function is only authorized for DELETE_PRE_PROVISION operations, received: CREATE_PRE_PROVISION";
               "clientRequestToken" := VStr "token-1" ]},
     my_service).
Proof.
  destruct (other_phase_unauthorized plain_str create_event my_service
              (VStr "CREATE_PRE_PROVISION") eq_refl eq_refl)
    as (token & received & Htoken & Hrun & Hstr & _).
  - discriminate.
  - change (Some (VStr "token-1") = Some token) in Htoken.
    injection Htoken as <-. rewrite Hrun.
    by rewrite (Hstr "CREATE_PRE_PROVISION" eq_refl).
Defined.

Lemma absent_key_non_compliant_witness :
  ∃ token : pyval,
    no_bucket_name_event !! "clientRequestToken" = Some token
    ∧ lambda_handler plain_str (VDict no_bucket_name_event) my_service
      = (Return {[ "hookStatus" := VStr "FAILURE";
                   "errorCode" := VStr "NonCompliant";
                   "message" := VStr "'BucketName'";
                   "clientRequestToken" := token ]},
         my_service).
Proof.
  apply (absent_key_non_compliant plain_str no_bucket_name_event my_service
           "BucketName").
  - reflexivity.
  - reflexivity.
  - apply (absent_BucketName no_bucket_name_event
             {[ "targetModel" := VDict {[ "resourceProperties" := VDict ∅ ]} ]}
             {[ "resourceProperties" := VDict ∅ ]} ∅); reflexivity.
Defined.

Lemma deletion_fault_propagates_witness :
  lambda_handler plain_str (VDict stray_event) my_service
  = (Raise (ClientError "NoSuchBucket"),
     record (ListObjects "no-such-bucket") my_service).
Proof.
  apply (deletion_fault_propagates plain_str stray_event my_service _
           (VStr "no-such-bucket")).
  - reflexivity.
  - reflexivity.
  - exists (request_data (VStr "no-such-bucket")),
      (target_model (VStr "no-such-bucket")),
      (resource_properties (VStr "no-such-bucket")).
    repeat split; reflexivity.
  - reflexivity.
Defined.

Lemma token_is_echoed_witness :
  ∃ d : gmap string pyval,
    VDict create_event = VDict d
    ∧ d !! "clientRequestToken" = Some (VStr "token-1").
Proof.
  apply (token_is_echoed plain_str (VDict create_event) my_service my_service
           {[ "hookStatus" := VStr "FAILURE";
              "errorCode" := VStr "Unauthorized";
              "message" :=
                VStr "This Lambda function is only authorized for DELETE_PRE_PROVISION operations, received: CREATE_PRE_PROVISION";
              "clientRequestToken" := VStr "token-1" ]}).
  - reflexivity.
  - reflexivity.
Defined.

Lemma empty_bucket_twice_witness :
  ∃ (r1 : list (list object_identifier)) (s1 s2 : service) (b2 : bucket),
    empty_bucket (VStr "my-bucket") my_service = (Return r1, s1)
    ∧ empty_bucket (VStr "my-bucket") s1 = (Return [], s2)
    ∧ requests s2
      = ListObjectVersions "my-bucket" :: ListObjects "my-bucket" :: requests s1
    ∧ buckets s2 = buckets s1
    ∧ buckets s2 !! "my-bucket" = Some b2
    ∧ current_objects b2 = []
    ∧ historical_versions b2 = []
    ∧ ∀ objects : list object_identifier,
        ∃ s3 : service,
          delete_objects (VStr "my-bucket") objects s1 = (Return objects, s3).
Proof.
  apply (empty_bucket_twice "my-bucket" my_bucket my_service). reflexivity.
Defined.

Lemma not_delete_phase_unauthorized_witness :
  ∃ verdict : gmap string pyval,
    lambda_handler plain_str (VDict create_event) my_service
    = (Return verdict, my_service)
    ∧ verdict !! "hookStatus" = Some (VStr "FAILURE")
    ∧ verdict !! "errorCode" = Some (VStr "Unauthorized")
    ∧ verdict !! "message"
      = Some (VStr "This Lambda function is only authorized for DELETE_PRE_PROVISION operations, received: CREATE_PRE_PROVISION")
    ∧ verdict !! "clientRequestToken" = Some (VStr "token-1").
Proof.
  destruct (not_delete_phase_unauthorized plain_str create_event my_service)
    as (verdict & Hrun & Hstatus & Hcode & Hnamed & _).
  - unfold delete_phase. discriminate.
  - exists verdict. repeat (split; [done|]).
    destruct (Hnamed eq_refl)
      as (point & received & Hpoint & Hmessage & Hstr & _ & _ & _ & Htoken).
    change (Some (VStr "CREATE_PRE_PROVISION") = Some point) in Hpoint.
    injection Hpoint as <-.
    rewrite (Hstr "CREATE_PRE_PROVISION" eq_refl) in Hmessage.
    split; [exact Hmessage|]. rewrite Htoken. reflexivity.
Defined.

Lemma validation_failure_deletes_nothing_witness :
  ∃ verdict : gmap string pyval,
    lambda_handler plain_str (VDict no_bucket_name_event) my_service
    = (Return verdict, my_service)
    ∧ verdict !! "hookStatus" = Some (VStr "FAILURE").
Proof.
  apply (validation_failure_deletes_nothing plain_str no_bucket_name_event
           my_service).
  right. right. exists "BucketName".
  apply (absent_BucketName no_bucket_name_event
           {[ "targetModel" := VDict {[ "resourceProperties" := VDict ∅ ]} ]}
           {[ "resourceProperties" := VDict ∅ ]} ∅); reflexivity.
Defined.

(** C8 as it is worded fails on an event whose phase is empty or absent:
    the provenance check answers first, with its own message and without
    the token the event carries. *)
Lemma empty_phase_gets_no_token :
  (empty_point_event !! "actionInvocationPoint" = Some (VStr "")
   ∧ empty_point_event !! "clientRequestToken" = Some (VStr "token-1")
   ∧ ∃ verdict : gmap string pyval,
       lambda_handler plain_str (VDict empty_point_event) my_service
       = (Return verdict, my_service)
       ∧ verdict !! "message"
         = Some (VStr "This Lambda function can only be invoked by CloudFormation Hooks")
       ∧ verdict !! "clientRequestToken" = None)
  ∧ (no_point_event !! "actionInvocationPoint" = None
     ∧ no_point_event !! "clientRequestToken" = Some (VStr "token-1")
     ∧ ∃ verdict : gmap string pyval,
         lambda_handler plain_str (VDict no_point_event) my_service
         = (Return verdict, my_service)
         ∧ verdict !! "message"
           = Some (VStr "This Lambda function can only be invoked by CloudFormation Hooks")
         ∧ verdict !! "clientRequestToken" = None).
Proof.
  split; (split; [reflexivity|]; split; [reflexivity|]; eexists;
          split; [by apply handler_unauthorized|]; split; reflexivity).
Qed.

End Claims.

(** * Every run of the hook *)
Module Outcomes.
Import S3Facts HookFacts.

(** *** The bulk delete, case by case *)

Lemma emptied_entries (b : bucket) : entries (emptied b) = [].
Proof. apply without_versions_entries. Qed.

Lemma emptied_status (b : bucket) : status (emptied b) = status b.
Proof.
  unfold emptied. rewrite without_versions_status. apply status_delete_all.
Qed.

Lemma requests_split {A} (l1 l2 l : list A) (x y : A) :
  l1 ++ x :: l2 ++ y :: l = (l1 ++ x :: l2 ++ [y]) ++ l.
Proof.
  rewrite <- app_assoc. cbn [app]. f_equal. f_equal.
  rewrite <- app_assoc. reflexivity.
Qed.

(** A name that is not a string never reaches the service; a string that
    names no bucket is refused by the service at the first listing; a
    string that names a bucket gets it emptied. *)
Lemma empty_bucket_cases (name : pyval) (s : service) :
  ((∀ n, name ≠ VStr n)
   ∧ ∃ e, (∀ k, e ≠ KeyError k) ∧ empty_bucket name s = (Raise e, s))
  ∨ (∃ n, name = VStr n
          ∧ buckets s !! n = None
          ∧ empty_bucket name s
            = (Raise (ClientError "NoSuchBucket"), record (ListObjects n) s))
  ∨ (∃ n b r rs, name = VStr n
          ∧ buckets s !! n = Some b
          ∧ empty_bucket name s
            = (Return r, Service (<[n := emptied b]> (buckets s)) (rs ++ requests s))).
Proof.
  destruct name as [| | | |n| |].
  1-4, 6-7: left; split; [done|]; eexists; split; [|reflexivity]; done.
  right. destruct (buckets s !! n) as [b|] eqn:Hb.
  - right. exists n, b. eexists _, _. split; [done|]. split; [done|].
    rewrite (empty_bucket_found n s b Hb). f_equal. f_equal.
    apply requests_split.
  - left. exists n. split; [done|]. split; [done|]. by apply empty_bucket_missing.
Qed.

(** The bulk delete on a bucket that is already empty: two listings, no
    DeleteObjects request, nothing changed. *)
Lemma empty_bucket_again (n : string) (s : service) (b : bucket) :
  buckets s !! n = Some b →
  entries b = [] →
  empty_bucket (VStr n) s
  = (Return [],
     Service (buckets s) (ListObjectVersions n :: ListObjects n :: requests s)).
Proof.
  intros Hb Hentries.
  assert (Hcurrent : current_objects b = []) by (by apply no_entries_no_objects).
  assert (Hobjects : without_objects b = b).
  { unfold without_objects. by rewrite Hcurrent. }
  assert (Hversions : without_versions b = b).
  { unfold without_versions. by rewrite Hentries. }
  rewrite (empty_bucket_found n s b Hb).
  rewrite Hobjects, Hversions, Hcurrent, Hentries.
  cbn [map pages pages_upto length rev app]. by rewrite insert_id.
Qed.

(** In a bucket with versioning enabled, deleting objects without version
    ids only puts delete markers on top of what is there. *)
Lemma delete_all_enabled (es : list entry) :
  ∀ b : bucket,
    status b = Enabled →
    ∃ markers : list entry,
      entries (delete_all b (map object_id es)) = markers ++ entries b
      ∧ Forall (λ e, delete_marker e = true) markers
      ∧ length markers = length es.
Proof.
  induction es as [|e es IH]; intros b Hstatus.
  - by exists [].
  - unfold delete_all in *. cbn [map foldl].
    destruct (IH (delete_object b (object_id e))) as (markers & Hentries & Hall & Hlen).
    { by rewrite status_delete_object. }
    rewrite Hentries. unfold delete_object, object_id. cbn [VersionId Key].
    rewrite Hstatus. cbn [entries].
    exists (markers ++ [Entry (key e) (Vid (next_vid b)) true]).
    split; [by rewrite <- app_assoc|]. split.
    + apply Forall_app. split; [done|]. by apply Forall_singleton.
    + rewrite length_app. cbn [length]. lia.
Qed.

(** The key of a binding found in a dictionary literal is one of the keys
    written in it. *)
Ltac literal_key :=
  repeat first [apply list_elem_of_here | apply list_elem_of_further].

Ltac literal_keys H :=
  repeat (apply lookup_insert_Some in H as [[<- _]|[_ H]]; [literal_key|]);
  apply lookup_singleton_Some in H as [<- _]; literal_key.

(** *** The handler, case by case *)
Section Runs.

Variable str_compound : pyval → string.

(** Every run of the handler goes one of the seven ways. *)
Lemma handler_branch (event : pyval) (s : service) :
  branch str_compound event s (lambda_handler str_compound event s).
Proof.
  destruct (is_mapping event) eqn:Hevent.
  2: { rewrite handler_not_mapping by done. by constructor. }
  destruct event as [| | | | | |d]; try discriminate Hevent. clear Hevent.
  destruct (provenance d) eqn:Hprov.
  2: { rewrite handler_unauthorized by done. by eapply branch_provenance. }
  destruct (provenance_token d Hprov) as [token Htoken].
  destruct (phase_cases d) as [Hphase|Hphase].
  - rewrite (handler_delete_phase str_compound d s token) by done.
    destruct (bucket_name_of_cases d) as [[name Hname]|[[k Hk]|Hseg]].
    + rewrite Hname. apply bucket_name_of_present in Hname.
      destruct (empty_bucket name s) as [[r|e] s'] eqn:Hrun.
      * by eapply branch_success.
      * by eapply branch_delete_raises.
    + rewrite Hk. apply bucket_name_of_absent in Hk. by eapply branch_key_error.
    + rewrite Hseg. apply bucket_name_of_not_mapping in Hseg.
      by eapply branch_type_error.
  - apply provenance_fields in Hprov as Hfields.
    destruct Hfields as (_ & Hpoint & _).
    apply has_field_lookup in Hpoint as (point & Hpoint & _).
    rewrite Hpoint in Hphase. cbn in Hphase.
    rewrite (handler_wrong_phase str_compound d s point token) by done.
    eapply branch_phase; try done. by apply ne_str_spec.
Qed.

(** X1.  Whatever the event, a verdict the handler returns has no key
    besides [hookStatus], [errorCode], [message] and [clientRequestToken],
    and is of one of two kinds: [SUCCESS] with the message [compliant], a
    token and no error code, or [FAILURE] with the error code
    [Unauthorized] or [NonCompliant] and a message that is a string. *)
Theorem verdict_contract (event : pyval) (s s' : service)
    (verdict : gmap string pyval) :
  lambda_handler str_compound event s = (Return verdict, s') →
  (∀ k, is_Some (verdict !! k) →
        k ∈ ["hookStatus"; "errorCode"; "message"; "clientRequestToken"])
  ∧ ((verdict !! "hookStatus" = Some (VStr "SUCCESS")
      ∧ verdict !! "errorCode" = None
      ∧ verdict !! "message" = Some (VStr "compliant")
      ∧ is_Some (verdict !! "clientRequestToken"))
     ∨ (verdict !! "hookStatus" = Some (VStr "FAILURE")
        ∧ (verdict !! "errorCode" = Some (VStr "Unauthorized")
           ∨ verdict !! "errorCode" = Some (VStr "NonCompliant"))
        ∧ ∃ m, verdict !! "message" = Some (VStr m))).
Proof.
  intros Hrun. pose proof (handler_branch event s) as Hbranch.
  rewrite Hrun in Hbranch.
  assert (Hkeys : ∀ (m : gmap string pyval) (k : string),
             (∀ x, m !! k = Some x →
                   k ∈ ["hookStatus"; "errorCode"; "message"; "clientRequestToken"]) →
             is_Some (m !! k) →
             k ∈ ["hookStatus"; "errorCode"; "message"; "clientRequestToken"]).
  { intros m k Hm [x Hx]. by eapply Hm. }
  inversion Hbranch; subst; (split; [intros j; apply Hkeys; intros x Hx|]).
  - unfold hooks_only_verdict in Hx.
    literal_keys Hx.
  - right. split; [reflexivity|]. split; [by left|]. by eexists.
  - unfold wrong_phase_verdict in Hx.
    literal_keys Hx.
  - right. split; [reflexivity|]. split; [by left|]. by eexists.
  - unfold non_compliant_verdict in Hx.
    literal_keys Hx.
  - right. split; [reflexivity|]. split; [by right|]. by eexists.
  - unfold success_verdict in Hx.
    literal_keys Hx.
  - left. split; [reflexivity|]. split; [reflexivity|]. split; [reflexivity|].
    by eexists.
Qed.

(** X2.  A run that ends with a [FAILURE] verdict has left the service as
    it was: no request sent, no bucket changed. *)
Theorem failure_leaves_service (event : pyval) (s : service)
    (verdict : gmap string pyval) :
  (lambda_handler str_compound event s).1 = Return verdict →
  verdict !! "hookStatus" = Some (VStr "FAILURE") →
  (lambda_handler str_compound event s).2 = s.
Proof.
  intros Hrun Hstatus. pose proof (handler_branch event s) as Hbranch.
  destruct (lambda_handler str_compound event s) as [o s'].
  cbn [fst snd] in *. subst o. inversion Hbranch; subst; try done.
Qed.

(** X3.  A [SUCCESS] verdict is returned only for a dictionary that passes
    both checks and whose path leads to the name of a bucket of the
    service, and only after that bucket has been emptied. *)
Theorem success_means_emptied (event : pyval) (s s' : service)
    (verdict : gmap string pyval) :
  lambda_handler str_compound event s = (Return verdict, s') →
  verdict !! "hookStatus" = Some (VStr "SUCCESS") →
  ∃ (d : gmap string pyval) (n : string) (b b' : bucket),
    event = VDict d
    ∧ provenance d = true
    ∧ delete_phase d
    ∧ bucket_name_at d (VStr n)
    ∧ buckets s !! n = Some b
    ∧ buckets s' !! n = Some b'
    ∧ current_objects b' = []
    ∧ historical_versions b' = [].
Proof.
  intros Hrun Hstatus. pose proof (handler_branch event s) as Hbranch.
  rewrite Hrun in Hbranch. inversion Hbranch; subst; try done.
  match goal with H : empty_bucket _ _ = _ |- _ => rename H into Hdelete end.
  destruct (empty_bucket_cases name s)
    as [(_ & e & _ & He)|[(n & _ & _ & He)|(n & b & r' & rs & -> & Hb & He)]];
    rewrite He in Hdelete; try discriminate Hdelete.
  injection Hdelete as _ <-.
  exists d, n, b, (emptied b). repeat (split; [done|]).
  split; [apply lookup_insert_eq|].
  apply no_entries_no_objects, emptied_entries.
Qed.

(** X4.  On a dictionary, the handler answers [Unauthorized] exactly when a
    provenance field is missing or empty or the phase is not
    [DELETE_PRE_PROVISION]. *)
Theorem unauthorized_exactly (d : gmap string pyval) (s : service) :
  (∃ (verdict : gmap string pyval) (s' : service),
     lambda_handler str_compound (VDict d) s = (Return verdict, s')
     ∧ verdict !! "errorCode" = Some (VStr "Unauthorized"))
  ↔ provenance d = false ∨ ¬ delete_phase d.
Proof.
  pose proof (handler_branch (VDict d) s) as Hbranch. split.
  - intros (verdict & s' & Hrun & Hcode). rewrite Hrun in Hbranch.
    inversion Hbranch; subst;
      try match goal with H : VDict _ = VDict _ |- _ => injection H as <- end;
      try done.
    + by left.
    + right. unfold delete_phase. congruence.
  - intros Hfails. clear Hbranch. destruct (provenance d) eqn:Hprov.
    2: { eexists _, s. split; [by apply handler_unauthorized|reflexivity]. }
    destruct Hfails as [Hfails|Hphase]; [done|].
    destruct (provenance_token d Hprov) as [token Htoken].
    apply provenance_fields in Hprov as Hfields.
    destruct Hfields as (_ & Hpoint & _).
    apply has_field_lookup in Hpoint as (point & Hpoint & _).
    assert (Hne : ne_str point "DELETE_PRE_PROVISION" = true).
    { apply ne_str_spec. intros ->. by apply Hphase. }
    eexists _, s.
    split; [by apply (handler_wrong_phase str_compound d s point token)|].
    reflexivity.
Qed.

(** X5.  On a dictionary, the handler answers [NonCompliant] exactly when
    both checks pass and a key of the path is absent from its
    dictionary. *)
Theorem non_compliant_exactly (d : gmap string pyval) (s : service) :
  (∃ (verdict : gmap string pyval) (s' : service),
     lambda_handler str_compound (VDict d) s = (Return verdict, s')
     ∧ verdict !! "errorCode" = Some (VStr "NonCompliant"))
  ↔ provenance d = true ∧ delete_phase d ∧ ∃ k, absent_key d k.
Proof.
  split.
  - intros (verdict & s' & Hrun & Hcode).
    pose proof (handler_branch (VDict d) s) as Hbranch. rewrite Hrun in Hbranch.
    inversion Hbranch; subst;
      try match goal with H : VDict _ = VDict _ |- _ => injection H as <- end;
      try done.
    eauto.
  - intros (Hprov & Hphase & k & Hk).
    destruct (provenance_token d Hprov) as [token Htoken].
    eexists _, s. split; [by apply (handler_key_error str_compound d s k token)|].
    reflexivity.
Qed.

(** X6.  An exception leaves the handler in three cases only: the event is
    not a dictionary ([AttributeError]); both checks pass and a segment of
    the path is not a mapping ([TypeError]); both checks pass, the path is
    there and the bulk delete raises.  In the first two the service is
    untouched.  A [KeyError] never leaves the handler: the subscripts
    [event["clientRequestToken"]] of lines 69, 75 and 80 are only reached
    when the key is there. *)
Theorem escaping_exceptions (event : pyval) (s s' : service) (e : exn) :
  lambda_handler str_compound event s = (Raise e, s') →
  (∀ k, e ≠ KeyError k)
  ∧ ((is_mapping event = false ∧ e = AttributeError ∧ s' = s)
     ∨ ∃ d : gmap string pyval,
         event = VDict d
         ∧ provenance d = true
         ∧ delete_phase d
         ∧ ((segment_not_mapping d ∧ e = TypeError ∧ s' = s)
            ∨ ∃ name, bucket_name_at d name
                      ∧ empty_bucket name s = (Raise e, s'))).
Proof.
  intros Hrun. pose proof (handler_branch event s) as Hbranch.
  rewrite Hrun in Hbranch. inversion Hbranch; subst.
  - split; [done|]. by left.
  - split; [done|]. right. eexists. repeat (split; [done|]). by left.
  - match goal with H : empty_bucket _ _ = _ |- _ => rename H into Hdelete end.
    split.
    + destruct (empty_bucket_cases name s)
        as [(_ & e' & Hne & He)|[(n & _ & _ & He)|(n & b & r' & rs & _ & _ & He)]];
        rewrite He in Hdelete; try discriminate Hdelete.
      * by injection Hdelete as <- _.
      * by injection Hdelete as <- _.
    + right. eexists. repeat (split; [done|]). right. eauto.
Qed.

(** The buckets after a run: as before, or with the bucket the event names
    emptied. *)
Lemma handler_buckets (event : pyval) (s : service) :
  buckets (lambda_handler str_compound event s).2 = buckets s
  ∨ ∃ (d : gmap string pyval) (n : string) (b : bucket),
      event = VDict d
      ∧ bucket_name_at d (VStr n)
      ∧ buckets s !! n = Some b
      ∧ buckets (lambda_handler str_compound event s).2
        = <[n := emptied b]> (buckets s).
Proof.
  pose proof (handler_branch event s) as Hbranch.
  destruct (lambda_handler str_compound event s) as [o s'] eqn:Hrun.
  cbn [snd].
  assert (Hdelete : ∀ d name o', event = VDict d → bucket_name_at d name →
            empty_bucket name s = (o', s') →
            buckets s' = buckets s
            ∨ ∃ (d : gmap string pyval) (n : string) (b : bucket),
                event = VDict d ∧ bucket_name_at d (VStr n)
                ∧ buckets s !! n = Some b
                ∧ buckets s' = <[n := emptied b]> (buckets s)).
  { intros d name o' -> Hname Hdelete.
    destruct (empty_bucket_cases name s)
      as [(_ & e' & _ & He)|[(n & _ & _ & He)|(n & b & r' & rs & -> & Hb & He)]];
      rewrite He in Hdelete; injection Hdelete as _ <-; [by left..|].
    right. by exists d, n, b. }
  inversion Hbranch; subst; try (by left); by eapply Hdelete.
Qed.

(** X7.  Whatever the event and however the run ends, the handler creates
    no bucket and removes none, changes the versioning status of none, and
    leaves every bucket other than the one the event names exactly as it
    was.  When the run returns a verdict, the named bucket too is either as
    it was or empty. *)
Theorem handler_frame (event : pyval) (s : service) :
  dom (buckets (lambda_handler str_compound event s).2) = dom (buckets s)
  ∧ ∀ (m : string) (b : bucket),
      buckets s !! m = Some b →
      ∃ b' : bucket,
        buckets (lambda_handler str_compound event s).2 !! m = Some b'
        ∧ status b' = status b
        ∧ ((∀ d, event = VDict d → ¬ bucket_name_at d (VStr m)) → b' = b)
        ∧ ∀ verdict : gmap string pyval,
            (lambda_handler str_compound event s).1 = Return verdict →
            b' = b ∨ entries b' = [].
Proof.
  destruct (handler_buckets event s) as [->|(d & n & b0 & -> & Hname & Hb0 & ->)].
  - split; [done|]. intros m b Hb. exists b. split; [done|]. split; [done|].
    split; [done|]. intros verdict _. by left.
  - split; [by apply dom_insert_lookup_L|]. intros m b Hb.
    destruct (decide (m = n)) as [->|Hne].
    + exists (emptied b0). rewrite lookup_insert_eq. split; [done|].
      assert (b0 = b) as -> by congruence.
      split; [apply emptied_status|]. split.
      * intros Hother. by destruct (Hother d eq_refl).
      * intros verdict _. right. apply emptied_entries.
    + exists b. rewrite lookup_insert_ne by done. split; [done|].
      split; [done|]. split; [done|]. intros verdict _. by left.
Qed.

(** X8.  The handler reads four fields of the event and nothing else, and
    of [hookTypeName] only whether it is there and not empty: two
    dictionaries that agree on that and on the three other fields get the
    same result. *)
Theorem handler_reads_four_fields (d1 d2 : gmap string pyval) (s : service) :
  has_field d1 "hookTypeName" = has_field d2 "hookTypeName" →
  d1 !! "actionInvocationPoint" = d2 !! "actionInvocationPoint" →
  d1 !! "clientRequestToken" = d2 !! "clientRequestToken" →
  d1 !! "requestData" = d2 !! "requestData" →
  lambda_handler str_compound (VDict d1) s = lambda_handler str_compound (VDict d2) s.
Proof.
  intros Hhook Hpoint Htoken Hdata.
  assert (Hprov : provenance d1 = provenance d2).
  { unfold provenance. rewrite Hhook. unfold has_field. by rewrite Hpoint, Htoken. }
  unfold lambda_handler, lift, mbind, M_bind.
  rewrite !provenance_check, Hprov.
  unfold bucket_name_of, py_get, py_getitem, mbind, outcome_bind.
  by rewrite Hpoint, Htoken, Hdata.
Qed.

(** X9.  The extraction does not look at what kind of value [BucketName]
    holds.  When both checks pass and the path leads to a value that is not
    a string ([null], a number, a list), the handler calls the bulk delete
    with it and the exception raised there leaves the handler: no verdict,
    and nothing sent to the service. *)
Theorem bucket_name_not_a_string (d : gmap string pyval) (s : service)
    (name : pyval) :
  provenance d = true →
  delete_phase d →
  bucket_name_at d name →
  (∀ n, name ≠ VStr n) →
  ∃ e : exn, lambda_handler str_compound (VDict d) s = (Raise e, s).
Proof.
  intros Hprov Hphase Hname Hkind.
  destruct (provenance_token d Hprov) as [token Htoken].
  rewrite (handler_deletes str_compound d s name token) by done.
  destruct (empty_bucket_cases name s)
    as [(_ & e & _ & He)|[(n & -> & _)|(n & b & r & rs & -> & _)]];
    [|by destruct (Hkind n)..].
  exists e. by rewrite He.
Qed.

(** X10.  The handler can be retried.  On a well-formed event that names a
    bucket of the service, a second run after the first returns the same
    [SUCCESS] verdict, sends the two listings and no DeleteObjects request,
    and leaves the buckets as the first run left them. *)
Theorem handler_twice (d : gmap string pyval) (n : string) (b : bucket)
    (s : service) :
  provenance d = true →
  delete_phase d →
  bucket_name_at d (VStr n) →
  buckets s !! n = Some b →
  ∃ (token : pyval) (s1 s2 : service),
    lambda_handler str_compound (VDict d) s = (Return (success_verdict token), s1)
    ∧ lambda_handler str_compound (VDict d) s1 = (Return (success_verdict token), s2)
    ∧ buckets s2 = buckets s1
    ∧ requests s2 = ListObjectVersions n :: ListObjects n :: requests s1.
Proof.
  intros Hprov Hphase Hname Hb.
  destruct (provenance_token d Hprov) as [token Htoken].
  exists token. eexists _, _.
  rewrite !(handler_deletes str_compound d _ (VStr n) token) by done.
  rewrite (empty_bucket_found n s b Hb). split; [reflexivity|].
  erewrite empty_bucket_again;
    [|cbn [buckets]; apply lookup_insert_eq|apply emptied_entries].
  by repeat split.
Qed.

End Runs.

(** *** The bulk delete *)

(** X11.  On a bucket of the service the bulk delete returns, and what it
    returns is the result of the first action alone: pages of at most 1000
    identifiers, none empty, that together hold the current objects, each
    once, by key and without version id.  What the second action deletes
    is not in it. *)
Theorem empty_bucket_response (n : string) (b : bucket) (s : service) :
  buckets s !! n = Some b →
  ∃ (r : list (list object_identifier)) (s' : service),
    empty_bucket (VStr n) s = (Return r, s')
    ∧ concat r ≡ₚ map object_id (current_objects b)
    ∧ Forall (λ page, 0 < length page ≤ 1000) r.
Proof.
  intros Hb. eexists _, _. split; [by apply empty_bucket_found|]. split.
  - by rewrite pages_concat.
  - eapply Forall_impl; [apply pages_bounded|].
    intros page Hpage. unfold page_size in Hpage. exact Hpage.
Qed.

(** X12.  The first action alone, [bucket.objects.delete()], leaves the
    bucket without current objects.  With versioning enabled it removes
    nothing for that: every entry is still there, under one new delete
    marker per object that was current. *)
Theorem objects_delete_alone (n : string) (b : bucket) (s : service) :
  buckets s !! n = Some b →
  ∃ (r : list (list object_identifier)) (s' : service) (b' : bucket),
    objects_delete (VStr n) s = (Return r, s')
    ∧ buckets s' !! n = Some b'
    ∧ current_objects b' = []
    ∧ (status b = Enabled →
       ∃ markers : list entry,
         entries b' = markers ++ entries b
         ∧ Forall (λ e, delete_marker e = true) markers
         ∧ length markers = length (current_objects b)).
Proof.
  intros Hb. eexists _, _, (without_objects b).
  split; [by apply objects_delete_found|].
  split; [apply lookup_insert_eq|]. split; [apply without_objects_current|].
  intros Hstatus. by apply delete_all_enabled.
Qed.

(** *** The statements above on the worked events *)

Lemma verdict_contract_witness :
  (∀ k, is_Some (wrong_phase_verdict "CREATE_PRE_PROVISION" (VStr "token-1") !! k) →
        k ∈ ["hookStatus"; "errorCode"; "message"; "clientRequestToken"])
  ∧ ((wrong_phase_verdict "CREATE_PRE_PROVISION" (VStr "token-1") !! "hookStatus"
      = Some (VStr "SUCCESS")
      ∧ wrong_phase_verdict "CREATE_PRE_PROVISION" (VStr "token-1") !! "errorCode"
        = None
      ∧ wrong_phase_verdict "CREATE_PRE_PROVISION" (VStr "token-1") !! "message"
        = Some (VStr "compliant")
      ∧ is_Some (wrong_phase_verdict "CREATE_PRE_PROVISION" (VStr "token-1")
                 !! "clientRequestToken"))
     ∨ (wrong_phase_verdict "CREATE_PRE_PROVISION" (VStr "token-1") !! "hookStatus"
        = Some (VStr "FAILURE")
        ∧ (wrong_phase_verdict "CREATE_PRE_PROVISION" (VStr "token-1") !! "errorCode"
           = Some (VStr "Unauthorized")
           ∨ wrong_phase_verdict "CREATE_PRE_PROVISION" (VStr "token-1") !! "errorCode"
             = Some (VStr "NonCompliant"))
        ∧ ∃ m, wrong_phase_verdict "CREATE_PRE_PROVISION" (VStr "token-1") !! "message"
               = Some (VStr m))).
Proof.
  apply (verdict_contract plain_str (VDict create_event) my_service my_service).
  reflexivity.
Defined.

Lemma failure_leaves_service_witness :
  (lambda_handler plain_str (VDict no_bucket_name_event) my_service).2 = my_service.
Proof.
  apply (failure_leaves_service plain_str (VDict no_bucket_name_event) my_service
           (non_compliant_verdict "BucketName" (VStr "token-1"))).
  - reflexivity.
  - reflexivity.
Defined.

Lemma success_means_emptied_witness :
  ∃ (d : gmap string pyval) (n : string) (b b' : bucket),
    VDict delete_event = VDict d
    ∧ provenance d = true
    ∧ delete_phase d
    ∧ bucket_name_at d (VStr n)
    ∧ buckets plain_service !! n = Some b
    ∧ buckets (lambda_handler plain_str (VDict delete_event) plain_service).2 !! n
      = Some b'
    ∧ current_objects b' = []
    ∧ historical_versions b' = [].
Proof.
  apply (success_means_emptied plain_str (VDict delete_event) plain_service _
           (success_verdict (VStr "token-1"))).
  - reflexivity.
  - reflexivity.
Defined.

Lemma escaping_exceptions_witness :
  (∀ k, ClientError "NoSuchBucket" ≠ KeyError k)
  ∧ ((is_mapping (VDict stray_event) = false
      ∧ ClientError "NoSuchBucket" = AttributeError
      ∧ record (ListObjects "no-such-bucket") my_service = my_service)
     ∨ ∃ d : gmap string pyval,
         VDict stray_event = VDict d
         ∧ provenance d = true
         ∧ delete_phase d
         ∧ ((segment_not_mapping d
             ∧ ClientError "NoSuchBucket" = TypeError
             ∧ record (ListObjects "no-such-bucket") my_service = my_service)
            ∨ ∃ name, bucket_name_at d name
                      ∧ empty_bucket name my_service
                        = (Raise (ClientError "NoSuchBucket"),
                           record (ListObjects "no-such-bucket") my_service))).
Proof.
  apply (escaping_exceptions plain_str (VDict stray_event) my_service).
  reflexivity.
Defined.

Lemma handler_reads_four_fields_witness :
  lambda_handler plain_str (VDict delete_event) my_service
  = lambda_handler plain_str (VDict relabelled_event) my_service.
Proof.
  apply (handler_reads_four_fields plain_str delete_event relabelled_event
           my_service); reflexivity.
Defined.

Lemma bucket_name_not_a_string_witness :
  ∃ e : exn,
    lambda_handler plain_str (VDict number_name_event) my_service
    = (Raise e, my_service).
Proof.
  apply (bucket_name_not_a_string plain_str number_name_event my_service (VInt 7)).
  - reflexivity.
  - reflexivity.
  - exists (request_data (VInt 7)), (target_model (VInt 7)),
      (resource_properties (VInt 7)).
    repeat split; reflexivity.
  - discriminate.
Defined.

Lemma handler_twice_witness :
  ∃ (token : pyval) (s1 s2 : service),
    lambda_handler plain_str (VDict delete_event) my_service
    = (Return (success_verdict token), s1)
    ∧ lambda_handler plain_str (VDict delete_event) s1
      = (Return (success_verdict token), s2)
    ∧ buckets s2 = buckets s1
    ∧ requests s2
      = ListObjectVersions "my-bucket" :: ListObjects "my-bucket" :: requests s1.
Proof.
  apply (handler_twice plain_str delete_event "my-bucket" my_bucket my_service).
  - reflexivity.
  - reflexivity.
  - exists (request_data (VStr "my-bucket")), (target_model (VStr "my-bucket")),
      (resource_properties (VStr "my-bucket")).
    repeat split; reflexivity.
  - reflexivity.
Defined.

Lemma empty_bucket_response_witness :
  ∃ (r : list (list object_identifier)) (s' : service),
    empty_bucket (VStr "my-bucket") plain_service = (Return r, s')
    ∧ concat r
      ≡ₚ [ ObjectIdentifier "a.txt" None;
           ObjectIdentifier "b.txt" None;
           ObjectIdentifier "c.txt" None ]
    ∧ Forall (λ page, 0 < length page ≤ 1000) r.
Proof.
  apply (empty_bucket_response "my-bucket" plain_bucket plain_service).
  reflexivity.
Defined.

Lemma objects_delete_alone_witness :
  ∃ (r : list (list object_identifier)) (s' : service) (b' : bucket),
    objects_delete (VStr "my-bucket") my_service = (Return r, s')
    ∧ buckets s' !! "my-bucket" = Some b'
    ∧ current_objects b' = []
    ∧ (status my_bucket = Enabled →
       ∃ markers : list entry,
         entries b' = markers ++ entries my_bucket
         ∧ Forall (λ e, delete_marker e = true) markers
         ∧ length markers = length (current_objects my_bucket)).
Proof.
  apply (objects_delete_alone "my-bucket" my_bucket my_service). reflexivity.
Defined.

(** On the archive bucket, which has no current object, the bulk delete
    removes two entries and returns an empty list; the other bucket of the
    service keeps its three objects. *)
Example archive_scenario :
  lambda_handler plain_str (VDict delete_event) archive_service
  = (Return (success_verdict (VStr "token-1")),
     Service {[ "my-bucket" := Bucket Enabled [] 2; "other-bucket" := plain_bucket ]}
       [ DeleteObjects "my-bucket"
           [ ObjectIdentifier "a.txt" (Some (Vid 1));
             ObjectIdentifier "a.txt" (Some (Vid 0)) ];
         ListObjectVersions "my-bucket";
         ListObjects "my-bucket" ])
  ∧ empty_bucket (VStr "my-bucket") archive_service
    = (Return [], (lambda_handler plain_str (VDict delete_event) archive_service).2).
Proof. split; reflexivity. Qed.

End Outcomes.
